(** * Wikipedia pageviews pipeline: transform, load, analyze

    A shallow embedding of [include/scripts/transform_pageviews.py] and
    [include/scripts/db.py], with the theorems that relate the code to its
    written specification.

    Text is modelled by [string]: a character is a code point below 256, so
    the whitespace and digit classes below are Python's classes restricted
    to that range.  Python integers are [Z]. *)

From Stdlib Require Import ZArith Ascii String List Bool Lia.
From stdpp Require Import base option list gmap strings pretty.

Local Open Scope string_scope.
Local Open Scope Z_scope.
Local Open Scope list_scope.

(** ** Python text primitives *)

Module Py.

(** [str.isspace] on one character: TAB..CR, FS..US, SPACE, NEL, NBSP. *)
Definition isspace (c : ascii) : bool :=
  let n := N_of_ascii c in
  ((9 <=? n) && (n <=? 13) || (28 <=? n) && (n <=? 32)
   || (n =? 133) || (n =? 160))%N.

(** [\d] and the digits [int] accepts, below code point 256: 0..9. *)
Definition isdigit (c : ascii) : bool :=
  let n := N_of_ascii c in ((48 <=? n) && (n <=? 57))%N.

Definition digit_value (c : ascii) : Z := Z.of_N (N_of_ascii c) - 48.

(** [s.replace(old, empty)] for a one-character [old]. *)
Fixpoint remove_char (old : ascii) (s : string) : string :=
  match s with
  | EmptyString => EmptyString
  | String c s' =>
      if Ascii.eqb c old then remove_char old s'
      else String c (remove_char old s')
  end.

(** Strip a class of characters from both ends. *)
Fixpoint lstrip_by (p : ascii -> bool) (s : string) : string :=
  match s with
  | String c s' => if p c then lstrip_by p s' else s
  | EmptyString => EmptyString
  end.

Fixpoint rstrip_by (p : ascii -> bool) (s : string) : string :=
  match s with
  | EmptyString => EmptyString
  | String c s' =>
      match rstrip_by p s' with
      | EmptyString => if p c then EmptyString else String c EmptyString
      | t => String c t
      end
  end.

(** [s.strip()] *)
Definition strip (s : string) : string := rstrip_by isspace (lstrip_by isspace s).

(** [s.split()]: maximal runs of non-whitespace characters, in order.
    [cur] is the field being read, kept reversed. *)
Fixpoint split_aux (cur : list ascii) (s : string) : list string :=
  let flush rest :=
    match cur with
    | [] => rest
    | _ => string_of_list_ascii (rev cur) :: rest
    end in
  match s with
  | EmptyString => flush []
  | String c s' =>
      if isspace c then flush (split_aux [] s')
      else split_aux (c :: cur) s'
  end.

Definition split (s : string) : list string := split_aux [] s.

(** [parts[lo:hi]] for non-negative bounds. *)
Definition slice {A} (lo hi : nat) (l : list A) : list A :=
  take (hi - lo) (drop lo l).

(** *** [int(s)] for a string argument

    CPython first maps non-ASCII whitespace to a space, then skips the C
    whitespace (TAB..CR and SPACE) at both ends, reads an optional sign and
    then digits in which single underscores may separate digits.  A literal
    of more than [max_str_digits] digits is refused. *)

Definition int_space (c : ascii) : bool :=
  let n := N_of_ascii c in
  ((9 <=? n) && (n <=? 13) || (n =? 32) || (n =? 133) || (n =? 160))%N.

Definition max_str_digits : nat := 4300.

(** [prev_digit] tells whether the previous character was a digit; [n]
    counts the digits read. *)
Fixpoint int_digits (s : string) (prev_digit : bool) (acc : Z) (n : nat)
  : option (Z * nat) :=
  match s with
  | EmptyString => if prev_digit then Some (acc, n) else None
  | String c s' =>
      if isdigit c then int_digits s' true (acc * 10 + digit_value c) (S n)
      else if Ascii.eqb c "_" then
        if prev_digit then int_digits s' false acc n else None
      else None
  end.

Definition int_unsigned (s : string) : option Z :=
  match int_digits s false 0 0%nat with
  | Some (v, n) => if (max_str_digits <? n)%nat then None else Some v
  | None => None
  end.

Definition int (s : string) : option Z :=
  match rstrip_by int_space (lstrip_by int_space s) with
  | String "-" s' => Z.opp <$> int_unsigned s'
  | String "+" s' => int_unsigned s'
  | s' => int_unsigned s'
  end.

End Py.

(** The line feed. *)
Definition LF : string := String (ascii_of_nat 10) EmptyString.

(** ** Exceptions *)

Inductive exn :=
| ValueError (msg : string)
| KeyError (key : string)
| FileNotFoundError (path : string)
| DatabaseError (msg : string).

(** ** [datetime.strptime(s, "%Y%m%d%H")]

    [_strptime] turns the format into the regular expression
    [(\d\d\d\d)(1[0-2]|0[1-9]|[1-9])(3[0-1]|[1-2]\d|0[1-9]|[1-9]| [1-9])(2[0-3]|[0-1]\d|\d)],
    matches it at the start of the string with the usual backtracking
    (alternatives in order), refuses a match that leaves characters
    unconverted, converts the four groups with [int] and builds the date,
    which checks the year and the day of the month. *)

Module Strptime.

Definition cls := ascii -> bool.

Definition lit (a : ascii) : cls := Ascii.eqb a.

Definition range (lo hi : ascii) : cls := fun c =>
  ((N_of_ascii lo <=? N_of_ascii c) && (N_of_ascii c <=? N_of_ascii hi))%N.

Definition digit : cls := Py.isdigit.

(** A directive: alternatives in priority order, each a sequence of
    character classes. *)
Definition directive := list (list cls).

Definition re_Y : directive := [[digit; digit; digit; digit]].

Definition re_m : directive :=
  [[lit "1"; range "0" "2"]; [lit "0"; range "1" "9"]; [range "1" "9"]].

Definition re_d : directive :=
  [[lit "3"; range "0" "1"]; [range "1" "2"; digit]; [lit "0"; range "1" "9"];
   [range "1" "9"]; [lit " "; range "1" "9"]].

Definition re_H : directive :=
  [[lit "2"; range "0" "3"]; [range "0" "1"; digit]; [digit]].

(** Match a sequence of classes at the start of [s]: the text matched and
    the rest. *)
Fixpoint match_seq (cs : list cls) (s : string) : option (string * string) :=
  match cs with
  | [] => Some (EmptyString, s)
  | p :: cs' =>
      match s with
      | String c s' =>
          if p c then
            match match_seq cs' s' with
            | Some (m, rest) => Some (String c m, rest)
            | None => None
            end
          else None
      | EmptyString => None
      end
  end.

(** Try the alternatives in order; [k] is the rest of the expression, and
    an alternative whose continuation fails is abandoned for the next. *)
Fixpoint match_alts {A} (alts : directive) (s : string)
    (k : string -> string -> option A) : option A :=
  match alts with
  | [] => None
  | a :: alts' =>
      match match_seq a s ≫= (fun '(m, rest) => k m rest) with
      | Some r => Some r
      | None => match_alts alts' s k
      end
  end.

(** The groups Y, m, d, H and the unconverted rest. *)
Definition match_format (s : string)
  : option (string * string * string * string * string) :=
  match_alts re_Y s (fun Y s1 =>
  match_alts re_m s1 (fun m s2 =>
  match_alts re_d s2 (fun d s3 =>
  match_alts re_H s3 (fun H s4 =>
  Some (Y, m, d, H, s4))))).

Definition is_leap (year : Z) : bool :=
  ((year mod 4 =? 0) && (negb (year mod 100 =? 0) || (year mod 400 =? 0)))%Z.

Definition days_in_month (year month : Z) : Z :=
  if (month =? 2)%Z then (if is_leap year then 29 else 28)
  else if ((month =? 4) || (month =? 6) || (month =? 9) || (month =? 11))%Z
  then 30
  else 31.

(** The checks of [datetime.date(year, month, day)]. *)
Definition valid_date (year month day : Z) : bool :=
  ((1 <=? year) && (year <=? 9999) && (1 <=? month) && (month <=? 12)
   && (1 <=? day) && (day <=? days_in_month year month))%Z.

Record datetime := mk_datetime { year : Z; month : Z; day : Z; hour : Z }.

Definition strptime (data_string : string) : exn + datetime :=
  match match_format data_string with
  | None => inl (ValueError "time data does not match format")
  | Some (Y, m, d, H, rest) =>
      match rest with
      | String _ _ => inl (ValueError "unconverted data remains")
      | EmptyString =>
          match Py.int Y, Py.int m, Py.int d, Py.int H with
          | Some y, Some mo, Some dd, Some h =>
              if valid_date y mo dd then inr (mk_datetime y mo dd h)
              else inl (ValueError "date out of range")
          | _, _, _, _ => inl (ValueError "invalid literal for int()")
          end
      end
  end.

End Strptime.

(** ** The Transformer: [transform_pageviews.py] *)

Module Transform.

Import Strptime.

(** A cell handed to [csv.writer.writerow]. *)
Inductive pyval := PInt (z : Z) | PStr (s : string).

Definition row := list pyval.

(** Target companies to filter from Wikipedia pageviews. *)
Definition COMPANIES : gset string :=
  {[ "Amazon"; "Apple_Inc."; "Facebook"; "Google"; "Microsoft" ]}.

Definition header : row :=
  [PStr "page_title_id"; PStr "page_title"; PStr "pageviews";
   PStr "year"; PStr "month"; PStr "day"; PStr "hour"].

(** The loop state: the surrogate key counter and the rows written after
    the header, oldest first. *)
Record loop_state := mk_loop { page_title_id : Z; written : list row }.

(** One iteration of [for line in infile]. *)
Definition process_line (ts : datetime) (line : string) (st : loop_state)
  : exn + loop_state :=
  let parts := Py.split (Py.strip line) in
  if (length parts <? 4)%nat then inr st
  else
    let useful_part := Py.slice 1 3 parts in
    match useful_part with
    | [page_title; pageviews] =>
        if bool_decide (page_title ∈ COMPANIES) then
          match Py.int pageviews with
          | Some views =>
              inr (mk_loop (page_title_id st + 1)
                     (written st ++
                      [[PInt (page_title_id st); PStr page_title; PInt views;
                        PInt (year ts); PInt (month ts); PInt (day ts);
                        PInt (hour ts)]]))
          | None => inl (ValueError "invalid literal for int()")
          end
        else inr st
    | _ => inl (ValueError "wrong number of values to unpack")
    end.

(** The loop: an exception leaves it at once, with the rows written so far. *)
Fixpoint for_lines (ts : datetime) (infile : list string) (st : loop_state)
  : option exn * loop_state :=
  match infile with
  | [] => (None, st)
  | line :: rest =>
      match process_line ts line st with
      | inr st' => for_lines ts rest st'
      | inl e => (Some e, st)
      end
  end.

(** What one call leaves behind: the value returned or the exception
    raised, and the output file, [None] when it was never opened, otherwise
    its rows, header first. *)
Record run := mk_run { outcome : exn + string; output : option (list row) }.

(** [infile] is the sequence of lines that iterating the input file yields.
    The calls to the logger and the creation of the output directory do not
    touch the output file and are left out. *)
Definition transform_pageviews (infile : list string) (output_file : string)
    (event_time : string) : run :=
  let normalized_time := Py.remove_char "-" event_time in
  match strptime normalized_time with
  | inl e => mk_run (inl e) None
  | inr timestamp =>
      match for_lines timestamp infile (mk_loop 1 []) with
      | (None, st) => mk_run (inr output_file) (Some (header :: written st))
      | (Some e, st) => mk_run (inl e) (Some (header :: written st))
      end
  end.

(** The records of a run: the rows after the header. *)
Definition records (r : run) : list row :=
  match output r with
  | Some (_ :: rows) => rows
  | _ => []
  end.

End Transform.

(** ** Reading a line the way the specification words it *)

Module LineSpec.

Import Strptime Transform.

Definition fields (line : string) : list string := Py.split (Py.strip line).

Definition well_formed (line : string) : bool := (4 <=? length (fields line))%nat.

Definition title_field (line : string) : string := nth 1 (fields line) EmptyString.

Definition views_field (line : string) : string := nth 2 (fields line) EmptyString.

(** A well-formed line whose title is on the watchlist. *)
Definition watched (line : string) : bool :=
  well_formed line && bool_decide (title_field line ∈ COMPANIES).

(** A watched line whose view count [int] refuses. *)
Definition fatal (line : string) : bool :=
  watched line && bool_decide (Py.int (views_field line) = None).

(** The row a watched line gives under key [k]. *)
Definition row_of (ts : datetime) (k : Z) (line : string) : row :=
  [PInt k; PStr (title_field line);
   PInt (default 0 (Py.int (views_field line)));
   PInt (year ts); PInt (month ts); PInt (day ts); PInt (hour ts)].

(** The rows of the watched lines, keyed from [k] on, in line order. *)
Fixpoint rows_from (ts : datetime) (k : Z) (lines : list string) : list row :=
  match lines with
  | [] => []
  | line :: rest =>
      if watched line then row_of ts k line :: rows_from ts (k + 1) rest
      else rows_from ts k rest
  end.

Definition cell_int (v : pyval) : option Z :=
  match v with PInt z => Some z | PStr _ => None end.

Definition cell_str (v : pyval) : option string :=
  match v with PStr s => Some s | PInt _ => None end.

Definition row_id (r : row) : option Z := r !! 0%nat ≫= cell_int.

Definition row_title (r : row) : option string := r !! 1%nat ≫= cell_str.

(** The cells (year, month, day, hour) of a row. *)
Definition row_time (r : row) : list pyval := drop 3 r.

Definition time_cells (ts : datetime) : list pyval :=
  [PInt (year ts); PInt (month ts); PInt (day ts); PInt (hour ts)].

End LineSpec.

(** ** The fixed-width timestamp of the specification *)

Module TimestampSpec.

Import Strptime.

Fixpoint string_forall (p : ascii → bool) (s : string) : bool :=
  match s with
  | EmptyString => true
  | String c s' => p c && string_forall p s'
  end.

(** The value of a string of decimal digits. *)
Fixpoint dec_from (acc : Z) (s : string) : Z :=
  match s with
  | EmptyString => acc
  | String c s' => dec_from (acc * 10 + Py.digit_value c) s'
  end.

Definition dec (s : string) : Z := dec_from 0 s.

(** The fields of a fixed-width YYYYMMDDHH string. *)
Definition fixed_fields (s : string) : datetime :=
  mk_datetime (dec (substring 0 4 s)) (dec (substring 4 2 s))
    (dec (substring 6 2 s)) (dec (substring 8 2 s)).

(** The pattern YYYYMMDDHH as the specification has it: ten decimal digits,
    four of the year, two of the month, two of the day, two of the hour,
    that name a date of the calendar and an hour of the day. *)
Definition matches_YYYYMMDDHH (s : string) : bool :=
  (String.length s =? 10)%nat && string_forall Py.isdigit s
  && (let t := fixed_fields s in
      valid_date (year t) (month t) (day t)
      && (0 <=? hour t) && (hour t <=? 23)).

(** What every string [strptime] accepts looks like: 7 to 10 characters,
    each a decimal digit or a space. *)
Definition digit_or_space (c : ascii) : bool := Py.isdigit c || Ascii.eqb c " ".

Definition plausible (s : string) : bool :=
  (7 <=? String.length s)%nat && (String.length s <=? 10)%nat
  && string_forall digit_or_space s.

(** A string of two characters. *)
Definition two (c1 c2 : ascii) : string := String c1 (String c2 EmptyString).

(** Every class of the four directives admits digits and spaces only, and
    an alternative has one or two classes, four for the year. *)
Definition directive_ok (lo hi : nat) (d : directive) : Prop :=
  Forall (λ a, (lo ≤ length a ≤ hi)%nat
               ∧ Forall (λ p : cls, ∀ c, p c = true → digit_or_space c = true) a)
    d.

End TimestampSpec.

(** ** The store, the filesystem and the logger: what [db.py] acts on *)

Module Db.

Import Transform.

(** A row of the table [wikipedia_pageviews]. *)
Record stored_row := mk_row {
  r_id : Z; r_title : string; r_pageviews : Z;
  r_year : Z; r_month : Z; r_day : Z; r_hour : Z }.

(** The table, rows in insertion order. *)
Definition table := list stored_row.

(** A row as [csv.DictReader] yields it: column name to field, the field
    being [None] where the line is short. *)
Definition csv_row := gmap string (option string).

(** The seven parameters of the INSERT, Python [None] being SQL NULL. *)
Record insert_values := mk_values {
  v_id : option string; v_title : option string; v_pageviews : option string;
  v_year : option string; v_month : option string; v_day : option string;
  v_hour : option string }.

Inductive statement :=
| CreateTableIfNotExists
| InsertOnConflictDoNothing (v : insert_values)
| SelectTopGroup.

(** The row [fetchone] gives for the analysis query:
    page_title, year, month, day, hour, total_pageviews. *)
Record top_row := mk_top {
  t_title : string; t_year : Z; t_month : Z; t_day : Z; t_hour : Z;
  t_total : Z }.

Inductive event :=
| EvConnect (conn_id : string)
| EvCursor
| EvExecute (s : statement)
| EvCommit
| EvRollback
| EvCursorClose
| EvConnClose.

Inductive level := DEBUG | INFO | WARNING | ERROR.

(** Everything a call can read or change.  [database] is the committed
    table, [None] while the relation does not exist; [working] is what the
    open transaction sees.  Three fields describe the store's side:
    [int4in], its reading of a text literal as an INTEGER; [tie_break], its
    choice among rows that ORDER BY leaves equal; [faults], the number of
    statements it still executes before the connection breaks, [None] when
    it never does. *)
Record world := mk_world {
  database : option table;
  working : option table;
  result_set : list top_row;
  open_conns : nat;
  open_cursors : nat;
  trace : list event;
  int4in : string → option Z;
  tie_break : nat;
  faults : option nat;
  csv_files : gmap string (list csv_row);
  pipeline_log : list (level * string);
  analysis_dir : bool;
  analysis_log : option string }.

Definition set_database (x : option table) (w : world) : world :=
  mk_world x (working w) (result_set w) (open_conns w) (open_cursors w)
    (trace w) (int4in w) (tie_break w) (faults w) (csv_files w)
    (pipeline_log w) (analysis_dir w) (analysis_log w).

Definition set_working (x : option table) (w : world) : world :=
  mk_world (database w) x (result_set w) (open_conns w) (open_cursors w)
    (trace w) (int4in w) (tie_break w) (faults w) (csv_files w)
    (pipeline_log w) (analysis_dir w) (analysis_log w).

Definition set_result_set (x : list top_row) (w : world) : world :=
  mk_world (database w) (working w) x (open_conns w) (open_cursors w)
    (trace w) (int4in w) (tie_break w) (faults w) (csv_files w)
    (pipeline_log w) (analysis_dir w) (analysis_log w).

Definition set_open_conns (x : nat) (w : world) : world :=
  mk_world (database w) (working w) (result_set w) x (open_cursors w)
    (trace w) (int4in w) (tie_break w) (faults w) (csv_files w)
    (pipeline_log w) (analysis_dir w) (analysis_log w).

Definition set_open_cursors (x : nat) (w : world) : world :=
  mk_world (database w) (working w) (result_set w) (open_conns w) x
    (trace w) (int4in w) (tie_break w) (faults w) (csv_files w)
    (pipeline_log w) (analysis_dir w) (analysis_log w).

Definition add_event (e : event) (w : world) : world :=
  mk_world (database w) (working w) (result_set w) (open_conns w)
    (open_cursors w) (trace w ++ [e]) (int4in w) (tie_break w) (faults w)
    (csv_files w) (pipeline_log w) (analysis_dir w) (analysis_log w).

Definition set_faults (x : option nat) (w : world) : world :=
  mk_world (database w) (working w) (result_set w) (open_conns w)
    (open_cursors w) (trace w) (int4in w) (tie_break w) x (csv_files w)
    (pipeline_log w) (analysis_dir w) (analysis_log w).

Definition add_log (l : level) (msg : string) (w : world) : world :=
  mk_world (database w) (working w) (result_set w) (open_conns w)
    (open_cursors w) (trace w) (int4in w) (tie_break w) (faults w)
    (csv_files w) (pipeline_log w ++ [(l, msg)]) (analysis_dir w)
    (analysis_log w).

Definition set_analysis_dir (x : bool) (w : world) : world :=
  mk_world (database w) (working w) (result_set w) (open_conns w)
    (open_cursors w) (trace w) (int4in w) (tie_break w) (faults w)
    (csv_files w) (pipeline_log w) x (analysis_log w).

Definition set_analysis_log (x : option string) (w : world) : world :=
  mk_world (database w) (working w) (result_set w) (open_conns w)
    (open_cursors w) (trace w) (int4in w) (tie_break w) (faults w)
    (csv_files w) (pipeline_log w) (analysis_dir w) x.

(** *** What the statements do to the table *)

Definition not_null {A} (column : string) (v : option A) : exn + A :=
  match v with
  | Some a => inr a
  | None =>
      inl (DatabaseError ("null value in column " +:+ column
                          +:+ " violates not-null constraint"))
  end.

(** A parameter for an INTEGER column: NULL stays NULL, a text literal goes
    through [int4in]. *)
Definition to_integer (int4in : string → option Z) (v : option string)
  : exn + option Z :=
  match v with
  | None => inr None
  | Some s =>
      match int4in s with
      | Some z => inr (Some z)
      | None => inl (DatabaseError "invalid input syntax for type integer")
      end
  end.

Definition bind_sum {E A B} (x : E + A) (k : A → E + B) : E + B :=
  match x with inl e => inl e | inr a => k a end.

(** The literals are coerced to the column types, then the NOT NULL
    constraints are checked. *)
Definition row_of_values (int4in : string → option Z) (v : insert_values)
  : exn + stored_row :=
  bind_sum (to_integer int4in (v_id v)) (λ id,
  bind_sum (to_integer int4in (v_pageviews v)) (λ pageviews,
  bind_sum (to_integer int4in (v_year v)) (λ year,
  bind_sum (to_integer int4in (v_month v)) (λ month,
  bind_sum (to_integer int4in (v_day v)) (λ day,
  bind_sum (to_integer int4in (v_hour v)) (λ hour,
  bind_sum (not_null "page_title_id" id) (λ id,
  bind_sum (not_null "page_title" (v_title v)) (λ title,
  bind_sum (not_null "pageviews" pageviews) (λ pageviews,
  bind_sum (not_null "year" year) (λ year,
  bind_sum (not_null "month" month) (λ month,
  bind_sum (not_null "day" day) (λ day,
  bind_sum (not_null "hour" hour) (λ hour,
  inr (mk_row id title pageviews year month day hour)))))))))))))).

Definition has_id (id : Z) (t : table) : bool :=
  existsb (λ r, r_id r =? id) t.

(** INSERT ... ON CONFLICT (page_title_id) DO NOTHING *)
Definition insert_on_conflict_do_nothing (r : stored_row) (t : table) : table :=
  if has_id (r_id r) t then t else t ++ [r].

(** The analysis query: GROUP BY page_title, year, month, day, hour with
    SUM(pageviews), ORDER BY that sum DESC, LIMIT 1. *)
Definition group_key : Type := string * Z * Z * Z * Z.

Definition key_of (r : stored_row) : group_key :=
  (r_title r, r_year r, r_month r, r_day r, r_hour r).

Definition total (k : group_key) (t : table) : Z :=
  foldr (λ r acc, if bool_decide (key_of r = k) then r_pageviews r + acc else acc)
    0 t.

Definition groups (t : table) : list (group_key * Z) :=
  (λ k, (k, total k t)) <$> remove_dups (key_of <$> t).

Definition max_total (gs : list (group_key * Z)) : option Z :=
  foldr (λ g acc, match acc with
                  | Some m => Some (Z.max g.2 m)
                  | None => Some g.2
                  end) None gs.

(** The groups that ORDER BY total_pageviews DESC may put first; which of
    them comes first is the store's choice. *)
Definition top_groups (gs : list (group_key * Z)) : list (group_key * Z) :=
  filter (λ g, Some g.2 = max_total gs) gs.

Definition select_top_group (tie : nat) (t : table) : list top_row :=
  let tops := top_groups (groups t) in
  match tops !! (tie mod length tops)%nat with
  | Some (title, year, month, day, hour, n) =>
      [mk_top title year month day hour n]
  | None => []
  end.

Definition undefined_table : exn :=
  DatabaseError "relation wikipedia_pageviews does not exist".

(** One statement on the table the transaction sees: the table afterwards
    and the rows returned. *)
Definition run_statement (int4in : string → option Z) (tie : nat)
    (s : statement) (t : option table) : exn + (option table * list top_row) :=
  match s with
  | CreateTableIfNotExists =>
      match t with Some _ => inr (t, []) | None => inr (Some [], []) end
  | InsertOnConflictDoNothing v =>
      match t with
      | None => inl undefined_table
      | Some rows =>
          bind_sum (row_of_values int4in v) (λ r,
          inr (Some (insert_on_conflict_do_nothing r rows), []))
      end
  | SelectTopGroup =>
      match t with
      | None => inl undefined_table
      | Some rows => inr (t, select_top_group tie rows)
      end
  end.

(** *** Computations: state and exceptions *)

Inductive result (A : Type) := Ok (a : A) | Raise (e : exn).
Arguments Ok {A} a.
Arguments Raise {A} e.

Definition M (A : Type) : Type := world → result A * world.

Definition ret {A} (a : A) : M A := λ w, (Ok a, w).

Definition raise {A} (e : exn) : M A := λ w, (Raise e, w).

Definition bind {A B} (m : M A) (k : A → M B) : M B := λ w,
  match m w with
  | (Ok a, w') => k a w'
  | (Raise e, w') => (Raise e, w')
  end.

Notation "x <- m ;; k" := (bind m (λ x, k))
  (at level 100, m at next level, right associativity).
Notation "m ;; k" := (bind m (λ _, k))
  (at level 100, right associativity).

(** [try: body except Exception as e: handler(e)] *)
Definition try_except {A} (body : M A) (handler : exn → M A) : M A := λ w,
  match body w with
  | (Ok a, w') => (Ok a, w')
  | (Raise e, w') => handler e w'
  end.

(** [try: body finally: final] *)
Definition try_finally {A} (body : M A) (final : M unit) : M A := λ w,
  let '(r, w') := body w in
  match final w' with
  | (Ok _, w'') => (r, w'')
  | (Raise e, w'') => (Raise e, w'')
  end.

Definition modify (f : world → world) : M unit := λ w, (Ok tt, f w).

Fixpoint for_each {A} (l : list A) (body : A → M unit) : M unit :=
  match l with
  | [] => ret tt
  | x :: rest => body x ;; for_each rest body
  end.

(** *** The logger of [logger.py]: level INFO, so [debug] records nothing *)

Definition logger_debug (msg : string) : M unit := ret tt.
Definition logger_info (msg : string) : M unit := modify (add_log INFO msg).
Definition logger_warning (msg : string) : M unit := modify (add_log WARNING msg).
Definition logger_exception (msg : string) : M unit := modify (add_log ERROR msg).

(** *** The connection and its cursor *)

(** [hook.get_conn()]: a new connection, whose transaction starts from the
    committed table. *)
Definition connected (conn_id : string) (w : world) : world :=
  add_event (EvConnect conn_id)
    (set_open_conns (S (open_conns w)) (set_working (database w) w)).

Definition with_cursor (w : world) : world :=
  add_event EvCursor (set_open_cursors (S (open_cursors w)) w).

Definition committed (w : world) : world :=
  add_event EvCommit (set_database (working w) w).

Definition rolled_back (w : world) : world :=
  add_event EvRollback (set_working (database w) w).

Definition cursor_closed (w : world) : world :=
  add_event EvCursorClose
    (set_result_set [] (set_open_cursors (pred (open_cursors w)) w)).

Definition connection_closed (w : world) : world :=
  add_event EvConnClose (set_open_conns (pred (open_conns w)) w).

Definition get_conn (conn_id : string) : M unit := modify (connected conn_id).
Definition connection_cursor : M unit := modify with_cursor.
Definition connection_commit : M unit := modify committed.
Definition connection_rollback : M unit := modify rolled_back.
Definition cursor_close : M unit := modify cursor_closed.
Definition connection_close : M unit := modify connection_closed.

Definition connection_lost : exn :=
  DatabaseError "server closed the connection unexpectedly".

Definition cursor_execute (s : statement) : M unit := λ w,
  let w := add_event (EvExecute s) w in
  match faults w with
  | Some O => (Raise connection_lost, w)
  | _ =>
      let w := set_faults (pred <$> faults w) w in
      match run_statement (int4in w) (tie_break w) s (working w) with
      | inl e => (Raise e, w)
      | inr (t, rows) => (Ok tt, set_result_set rows (set_working t w))
      end
  end.

Definition cursor_fetchone : M (option top_row) := λ w,
  match result_set w with
  | [] => (Ok None, w)
  | r :: rest => (Ok (Some r), set_result_set rest w)
  end.

(** [with postgres_cursor(conn_id) as cursor: body] *)
Definition postgres_cursor {A} (conn_id : string) (body : M A) : M A :=
  logger_debug ("Opening Postgres connection | conn_id=" +:+ conn_id) ;;
  get_conn conn_id ;;
  connection_cursor ;;
  try_finally
    (try_except
       (r <- body ;;
        connection_commit ;;
        ret r)
       (λ e,
          connection_rollback ;;
          logger_exception "Postgres transaction failed and was rolled back" ;;
          raise e))
    (cursor_close ;;
     connection_close ;;
     logger_debug "Postgres connection closed").

(** *** The Loader *)

(** [open(csv_file)] and [csv.DictReader]: the rows of the file. *)
Definition read_csv (csv_file : string) : M (list csv_row) := λ w,
  match csv_files w !! csv_file with
  | Some rows => (Ok rows, w)
  | None => (Raise (FileNotFoundError csv_file), w)
  end.

(** [row[key]] *)
Definition getitem (row : csv_row) (key : string) : M (option string) :=
  match row !! key with
  | Some v => ret v
  | None => raise (KeyError key)
  end.

Definition insert_row (row : csv_row) : M unit :=
  page_title_id <- getitem row "page_title_id" ;;
  page_title <- getitem row "page_title" ;;
  pageviews <- getitem row "pageviews" ;;
  year <- getitem row "year" ;;
  month <- getitem row "month" ;;
  day <- getitem row "day" ;;
  hour <- getitem row "hour" ;;
  cursor_execute
    (InsertOnConflictDoNothing
       (mk_values page_title_id page_title pageviews year month day hour)).

(** The block under [with postgres_cursor(conn_id) as cursor]. *)
Definition load_block (csv_file : string) : M unit :=
  cursor_execute CreateTableIfNotExists ;;
  reader <- read_csv csv_file ;;
  for_each reader insert_row.

Definition load_to_postgres (csv_file conn_id : string) : M unit :=
  logger_info ("Loading transformed data into Postgres | file=" +:+ csv_file) ;;
  postgres_cursor conn_id (load_block csv_file) ;;
  logger_info "Data successfully loaded into Postgres".

(** *** The Analyzer *)

Definition str (z : Z) : string := pretty z.

(** [format(z, "02d")] *)
Definition format_02d (z : Z) : string :=
  if (0 <=? z) && (z <? 10) then "0" +:+ str z else str z.

Definition report_message (row : top_row) : string :=
  "Most viewed Wikipedia page: '" +:+ t_title row +:+ "' | "
  +:+ "Total views: " +:+ str (t_total row) +:+ " | "
  +:+ "Time window: "
  +:+ str (t_year row) +:+ "-" +:+ format_02d (t_month row) +:+ "-"
  +:+ format_02d (t_day row) +:+ " "
  +:+ "at " +:+ format_02d (t_hour row) +:+ ":00".

Definition result_dict (row : top_row) : gmap string pyval :=
  {[ "page_title" := PStr (t_title row);
     "year" := PInt (t_year row);
     "month" := PInt (t_month row);
     "day" := PInt (t_day row);
     "hour" := PInt (t_hour row);
     "total_pageviews" := PInt (t_total row) ]}.

(** [ANALYSIS_LOG_DIR.mkdir(parents=True, exist_ok=True)] *)
Definition mkdir_analysis_log_dir : M unit := modify (set_analysis_dir true).

(** [open(ANALYSIS_LOG_FILE, "a")] and one [write]. *)
Definition append_analysis_log (text : string) : M unit := λ w,
  if analysis_dir w then
    (Ok tt, set_analysis_log
              (Some (default EmptyString (analysis_log w) +:+ text)) w)
  else (Raise (FileNotFoundError "analysis_result.log"), w).

Definition get_most_viewed_page (conn_id : string) : M (gmap string pyval) :=
  logger_info "Running analysis: most viewed Wikipedia page with time context" ;;
  row <- postgres_cursor conn_id
           (cursor_execute SelectTopGroup ;;
            cursor_fetchone) ;;
  match row with
  | None =>
      logger_warning "No data found in wikipedia_pageviews table" ;;
      ret ∅
  | Some row =>
      let result := result_dict row in
      mkdir_analysis_log_dir ;;
      append_analysis_log (report_message row +:+ LF) ;;
      logger_info (report_message row) ;;
      ret result
  end.

(** An instance of the store's reading of integers: an optional sign and
    decimal digits, within 32 bits. *)
Definition int4in_decimal (s : string) : option Z :=
  match Py.int s with
  | Some z => if (-2147483648 <=? z) && (z <=? 2147483647) then Some z else None
  | None => None
  end.

Definition empty_world : world :=
  mk_world None None [] 0 0 [] int4in_decimal 0 None ∅ [] false None.

End Db.

(** ** Describing a load *)

Module DbSpec.

Import Db.

(** The parameters of the INSERT for a row of the file that has the seven
    columns. *)
Definition values_of_row (row : csv_row) : option insert_values :=
  page_title_id ← row !! "page_title_id";
  page_title ← row !! "page_title";
  pageviews ← row !! "pageviews";
  year ← row !! "year";
  month ← row !! "month";
  day ← row !! "day";
  hour ← row !! "hour";
  Some (mk_values page_title_id page_title pageviews year month day hour).

(** Statements applied in order to the table of a transaction. *)
Fixpoint apply_statements (int4in : string → option Z) (tie : nat)
    (stmts : list statement) (t : option table) : exn + option table :=
  match stmts with
  | [] => inr t
  | s :: rest =>
      bind_sum (run_statement int4in tie s t) (λ '(t', _),
      apply_statements int4in tie rest t')
  end.

(** Two worlds that differ at most in the open transaction, its result set,
    the trace and the remaining faults. *)
Definition same_outside (w w' : world) : Prop :=
  database w' = database w
  ∧ open_conns w' = open_conns w
  ∧ open_cursors w' = open_cursors w
  ∧ int4in w' = int4in w
  ∧ tie_break w' = tie_break w
  ∧ csv_files w' = csv_files w
  ∧ pipeline_log w' = pipeline_log w
  ∧ analysis_dir w' = analysis_dir w
  ∧ analysis_log w' = analysis_log w.

(** The stored row a row of the file stands for. *)
Definition row_plan (int4in : string → option Z) (row : csv_row)
  : option stored_row :=
  v ← values_of_row row;
  match row_of_values int4in v with inr r => Some r | inl _ => None end.

(** The rows a file stands for, when every row of it can be inserted. *)
Definition file_plan (w : world) (csv_file : string) : option (list stored_row) :=
  rows ← csv_files w !! csv_file;
  mapM (row_plan (int4in w)) rows.

Definition insert_all (rs : list stored_row) (t : table) : table :=
  foldl (λ t r, insert_on_conflict_do_nothing r t) t rs.

Definition stored (w : world) : table := default [] (database w).

End DbSpec.

(** ** Worlds to run the code in *)

Module Examples.

Import Db.

Definition file_row (id title views hour : string) : csv_row :=
  {[ "page_title_id" := Some id; "page_title" := Some title;
     "pageviews" := Some views; "year" := Some "2025"; "month" := Some "12";
     "day" := Some "10"; "hour" := Some hour ]}.

(** No table yet, and one transformed file. *)
Definition fresh_world : world :=
  mk_world None None [] 0 0 [] int4in_decimal 0 None
    {[ "pageviews.csv" := [file_row "1" "Google" "7" "16";
                           file_row "2" "Amazon" "9" "16";
                           file_row "3" "Google" "5" "16"] ]}
    [] false None.

(** A table of three rows in two groups. *)
Definition loaded_table : table :=
  [mk_row 1 "Google" 7 2025 12 10 16;
   mk_row 2 "Amazon" 9 2025 12 10 16;
   mk_row 3 "Google" 5 2025 12 10 16].

Definition loaded_world : world := set_database (Some loaded_table) fresh_world.

(** The table created and still empty. *)
Definition empty_table_world : world := set_database (Some []) fresh_world.

End Examples.

Import Strptime Transform LineSpec TimestampSpec.

(** * Proofs *)

(** ** The text primitives on examples *)

Example split_ex :
  Py.split (Py.strip ("  23 Apple_Inc.   451 999" +:+ LF))
  = ["23"; "Apple_Inc."; "451"; "999"].
Proof. reflexivity. Qed.

Example int_ex :
  map Py.int ["451"; "-7"; "+1_000"; "007"; "1__0"; "_1"; "1_"; "4 5"; "0x1f"; "12a"; " 5"]
  = [Some 451; Some (-7); Some 1000; Some 7; None; None; None; None; None; None; Some 5].
Proof. reflexivity. Qed.

(** ** The loop of the Transformer *)

Lemma fields_shape (line : string) :
  well_formed line = true →
  ∃ f0 f3 rest, fields line = f0 :: title_field line :: views_field line :: f3 :: rest.
Proof.
  unfold well_formed, title_field, views_field.
  destruct (fields line) as [|f0 [|t [|v [|f3 rest]]]]; simpl; try discriminate.
  intros _. by exists f0, f3, rest.
Qed.

(** What one iteration does, by the kind of line. *)
Lemma process_line_skip ts line st :
  watched line = false → process_line ts line st = inr st.
Proof.
  unfold watched, process_line. fold (fields line).
  destruct (well_formed line) eqn:Hwf; simpl.
  - destruct (fields_shape line Hwf) as (f0 & f3 & rest & ->). simpl.
    intros ->. done.
  - intros _. unfold well_formed in Hwf.
    destruct (length (fields line) <? 4)%nat eqn:Hlt; [done|].
    apply Nat.ltb_ge in Hlt. apply Nat.leb_gt in Hwf. lia.
Qed.

Lemma process_line_watched ts line st :
  watched line = true →
  process_line ts line st =
    match Py.int (views_field line) with
    | Some _ => inr (mk_loop (page_title_id st + 1)
                       (written st ++ [row_of ts (page_title_id st) line]))
    | None => inl (ValueError "invalid literal for int()")
    end.
Proof.
  unfold watched, process_line. fold (fields line).
  intros [Hwf Hin]%andb_true_iff.
  destruct (fields_shape line Hwf) as (f0 & f3 & rest & Hf).
  unfold row_of. rewrite Hf. simpl. rewrite Hin.
  by destruct (Py.int (views_field line)).
Qed.

Lemma process_line_fatal ts line st :
  fatal line = true →
  process_line ts line st = inl (ValueError "invalid literal for int()").
Proof.
  unfold fatal. intros [Hw Hv]%andb_true_iff.
  rewrite (process_line_watched _ _ _ Hw).
  apply bool_decide_eq_true in Hv. by rewrite Hv.
Qed.

Lemma process_line_emit ts line st :
  watched line = true → fatal line = false →
  process_line ts line st =
    inr (mk_loop (page_title_id st + 1)
           (written st ++ [row_of ts (page_title_id st) line])).
Proof.
  intros Hw Hf. rewrite (process_line_watched _ _ _ Hw).
  unfold fatal in Hf. rewrite Hw in Hf. simpl in Hf.
  apply bool_decide_eq_false in Hf.
  by destruct (Py.int (views_field line)).
Qed.

(** A loop that ends normally has written the rows of all watched lines. *)
Lemma for_lines_returns ts lines st st' :
  for_lines ts lines st = (None, st') →
  written st' = written st ++ rows_from ts (page_title_id st) lines
  ∧ forallb (λ l, negb (fatal l)) lines = true.
Proof.
  revert st. induction lines as [|line rest IH]; intros st; simpl.
  - intros [= <-]. by rewrite app_nil_r.
  - destruct (watched line) eqn:Hw.
    + destruct (fatal line) eqn:Hf.
      * by rewrite (process_line_fatal _ _ _ Hf).
      * rewrite (process_line_emit _ _ _ Hw Hf). intros H.
        destruct (IH _ H) as [-> ?]. simpl. by rewrite <- app_assoc.
    + rewrite (process_line_skip _ _ _ Hw). intros H.
      assert (fatal line = false) as -> by (unfold fatal; by rewrite Hw).
      by apply IH.
Qed.

(** A loop that raises stopped at the first fatal line, with the rows of
    the watched lines before it written. *)
Lemma for_lines_raises ts lines st e st' :
  for_lines ts lines st = (Some e, st') →
  ∃ pre bad post,
    lines = pre ++ bad :: post
    ∧ forallb (λ l, negb (fatal l)) pre = true
    ∧ fatal bad = true
    ∧ e = ValueError "invalid literal for int()"
    ∧ written st' = written st ++ rows_from ts (page_title_id st) pre.
Proof.
  revert st. induction lines as [|line rest IH]; intros st; simpl; [done|].
  destruct (watched line) eqn:Hw.
  - destruct (fatal line) eqn:Hf.
    + rewrite (process_line_fatal _ _ _ Hf). intros [= <- <-].
      exists [], line, rest. by rewrite app_nil_r.
    + rewrite (process_line_emit _ _ _ Hw Hf). intros H.
      destruct (IH _ H) as (pre & bad & post & -> & Hpre & Hbad & -> & ->).
      exists (line :: pre), bad, post. simpl. rewrite Hw, Hf.
      by rewrite <- app_assoc.
  - rewrite (process_line_skip _ _ _ Hw). intros H.
    assert (fatal line = false) as Hf by (unfold fatal; by rewrite Hw).
    destruct (IH _ H) as (pre & bad & post & -> & Hpre & Hbad & -> & ->).
    exists (line :: pre), bad, post. simpl. by rewrite Hw, Hf.
Qed.

(** Facts about the rows of the watched lines. *)
Lemma rows_from_length ts k lines :
  length (rows_from ts k lines) = length (filter (λ l, watched l = true) lines).
Proof.
  revert k. induction lines as [|line rest IH]; intros k; simpl; [done|].
  rewrite filter_cons. destruct (watched line); simpl; by rewrite IH.
Qed.

Lemma rows_from_ids ts k lines :
  row_id <$> rows_from ts k lines
  = Some <$> seqZ k (Z.of_nat (length (rows_from ts k lines))).
Proof.
  revert k. induction lines as [|line rest IH]; intros k; simpl; [done|].
  destruct (watched line); [|apply IH]. simpl length.
  rewrite Nat2Z.inj_succ, seqZ_cons by lia. simpl.
  rewrite IH. do 3 f_equal; lia.
Qed.

Lemma rows_from_titles ts k lines :
  row_title <$> rows_from ts k lines
  = (λ l, Some (title_field l)) <$> filter (λ l, watched l = true) lines.
Proof.
  revert k. induction lines as [|line rest IH]; intros k; simpl; [done|].
  rewrite filter_cons. destruct (watched line); simpl; by rewrite IH.
Qed.

Lemma rows_from_elem ts k lines r :
  r ∈ rows_from ts k lines →
  ∃ line j, line ∈ lines ∧ watched line = true ∧ r = row_of ts j line.
Proof.
  revert k. induction lines as [|line rest IH]; intros k; simpl.
  - by intros ?%elem_of_nil.
  - destruct (watched line) eqn:Hw.
    + intros [->|Hin]%elem_of_cons.
      * exists line, k. split; [left|done].
      * destruct (IH _ Hin) as (l & j & ? & ? & ?). exists l, j.
        split; [by right|done].
    + intros Hin. destruct (IH _ Hin) as (l & j & ? & ? & ?). exists l, j.
      split; [by right|done].
Qed.

(** The records of a run, in terms of the lines. *)
Lemma records_spec lines out et :
  match strptime (Py.remove_char "-" et) with
  | inl e =>
      transform_pageviews lines out et = mk_run (inl e) None
  | inr ts =>
      (forallb (λ l, negb (fatal l)) lines = true
       ∧ transform_pageviews lines out et
         = mk_run (inr out) (Some (header :: rows_from ts 1 lines)))
      ∨ (∃ pre bad post,
           lines = pre ++ bad :: post
           ∧ forallb (λ l, negb (fatal l)) pre = true
           ∧ fatal bad = true
           ∧ transform_pageviews lines out et
             = mk_run (inl (ValueError "invalid literal for int()"))
                 (Some (header :: rows_from ts 1 pre)))
  end.
Proof.
  unfold transform_pageviews.
  destruct (strptime _) as [e|ts]; [done|].
  destruct (for_lines ts lines (mk_loop 1 [])) as [[e|] st] eqn:Hl.
  - right. destruct (for_lines_raises _ _ _ _ _ Hl)
      as (pre & bad & post & -> & Hpre & Hbad & -> & Hw).
    exists pre, bad, post. simpl in Hw. by rewrite Hw.
  - left. destruct (for_lines_returns _ _ _ _ Hl) as [Hw Hok].
    simpl in Hw. by rewrite Hw.
Qed.

Lemma records_ids lines out et :
  let r := transform_pageviews lines out et in
  row_id <$> records r = Some <$> seqZ 1 (Z.of_nat (length (records r))).
Proof.
  pose proof (records_spec lines out et) as H.
  destruct (strptime _) as [e|ts]; simpl.
  - by rewrite H.
  - destruct H as [[_ ->]|(pre & bad & post & _ & _ & _ & ->)];
      unfold records; simpl; apply rows_from_ids.
Qed.

Lemma records_returned lines out et ts :
  strptime (Py.remove_char "-" et) = inr ts →
  outcome (transform_pageviews lines out et) = inr out →
  records (transform_pageviews lines out et) = rows_from ts 1 lines.
Proof.
  intros Hts. pose proof (records_spec lines out et) as H. rewrite Hts in H.
  destruct H as [[_ ->]|(pre & bad & post & _ & _ & _ & ->)]; [done|].
  simpl. discriminate.
Qed.

Lemma records_elem lines out et r :
  r ∈ records (transform_pageviews lines out et) →
  ∃ ts line j,
    strptime (Py.remove_char "-" et) = inr ts
    ∧ line ∈ lines ∧ watched line = true ∧ r = row_of ts j line.
Proof.
  pose proof (records_spec lines out et) as H.
  destruct (strptime _) as [e|ts].
  - rewrite H. by intros ?%elem_of_nil.
  - destruct H as [[_ ->]|(pre & bad & post & -> & _ & _ & ->)];
      unfold records; simpl; intros (line & j & Hin & Hw & ->)%rows_from_elem;
      exists ts, line, j; repeat split; try done.
    apply elem_of_app. by left.
Qed.

Lemma watched_title line :
  watched line = true → title_field line ∈ COMPANIES.
Proof.
  unfold watched. intros [_ H]%andb_true_iff. by apply bool_decide_eq_true in H.
Qed.

Lemma COMPANIES_members (t : string) :
  t ∈ COMPANIES ↔
  t = "Amazon" ∨ t = "Apple_Inc." ∨ t = "Facebook" ∨ t = "Google"
  ∨ t = "Microsoft".
Proof.
  unfold COMPANIES. rewrite !elem_of_union, !elem_of_singleton. tauto.
Qed.

Lemma records_time lines out et ts :
  strptime (Py.remove_char "-" et) = inr ts →
  Forall (λ r, row_time r = time_cells ts)
    (records (transform_pageviews lines out et)).
Proof.
  intros Hts. apply Forall_forall.
  intros r (ts' & line & j & Hts' & _ & _ & ->)%records_elem.
  rewrite Hts in Hts'. by injection Hts' as <-.
Qed.

(** ** Theorems about the Transformer *)

(** C1: the surrogate keys of the records of a run are 1, 2, ..., in the
    order of the input lines, whatever the input and the timestamp; when the
    run returns, there is one record for each well-formed line whose title is
    on the watchlist, the i-th record being the one of the i-th such line, so
    the keys are exactly 1..N.  The counter is local to the call: every run
    starts again at 1. *)
Theorem surrogate_keys_contiguous (lines : list string) (out et : string) :
  let r := transform_pageviews lines out et in
  let N := length (filter (λ l, watched l = true) lines) in
  row_id <$> records r = Some <$> seqZ 1 (Z.of_nat (length (records r)))
  ∧ NoDup (row_id <$> records r)
  ∧ (outcome r = inr out →
       length (records r) = N
       ∧ row_id <$> records r = Some <$> seqZ 1 (Z.of_nat N)
       ∧ row_title <$> records r
         = (λ l, Some (title_field l)) <$> filter (λ l, watched l = true) lines).
Proof.
  intros r N. split; [apply records_ids|]. split.
  { subst r. rewrite records_ids. apply NoDup_fmap; [apply _|apply NoDup_seqZ]. }
  intros Hret. pose proof (records_ids lines out et) as Hids.
  fold r in Hids. subst r N.
  destruct (strptime (Py.remove_char "-" et)) as [e|ts] eqn:Hts.
  - pose proof (records_spec lines out et) as H. rewrite Hts in H.
    rewrite H in Hret. discriminate.
  - rewrite (records_returned _ _ _ _ Hts Hret) in *.
    rewrite <- (rows_from_length ts 1).
    split; [done|]. split; [apply rows_from_ids|apply rows_from_titles].
Qed.

Lemma surrogate_keys_contiguous_witness :
  let r := transform_pageviews
             ["en Google 7 0"; "en X"; "en Other 9 0"; "en Amazon 3 0"]
             "out.csv" "20251210-16" in
  outcome r = inr "out.csv"
  ∧ row_id <$> records r = [Some 1; Some 2].
Proof.
  split; [reflexivity|].
  exact (proj1 (proj2 (proj2 (proj2 (surrogate_keys_contiguous
    ["en Google 7 0"; "en X"; "en Other 9 0"; "en Amazon 3 0"]
    "out.csv" "20251210-16")) eq_refl))).
Defined.

(** C2: every record of a run carries a title of the watchlist, the
    watchlist has exactly the five entries Amazon, Apple_Inc., Facebook,
    Google and Microsoft, compared as exact strings, and a line whose title
    field is not one of them leaves the loop state as it was: it writes no
    record. *)
Theorem titles_on_watchlist (lines : list string) (out et : string) :
  Forall (λ r, ∃ t, row_title r = Some t ∧ t ∈ COMPANIES)
    (records (transform_pageviews lines out et))
  ∧ (∀ t : string,
       t ∈ COMPANIES ↔
       t = "Amazon" ∨ t = "Apple_Inc." ∨ t = "Facebook" ∨ t = "Google"
       ∨ t = "Microsoft")
  ∧ size COMPANIES = 5%nat
  ∧ (∀ ts line st,
       title_field line ∉ COMPANIES → process_line ts line st = inr st).
Proof.
  split; [|split; [|split]].
  - apply Forall_forall. intros r (ts & line & j & _ & _ & Hw & ->)%records_elem.
    exists (title_field line). split; [done|]. by apply watched_title.
  - apply COMPANIES_members.
  - by vm_compute.
  - intros ts line st Hout. apply process_line_skip.
    destruct (watched line) eqn:Hw; [|done].
    by apply watched_title in Hw.
Qed.

Lemma titles_on_watchlist_witness :
  process_line (mk_datetime 2025 12 10 16) "en google 5 0" (mk_loop 1 [])
  = inr (mk_loop 1 []).
Proof.
  apply (proj2 (proj2 (proj2 (titles_on_watchlist [] "out.csv" "20251210-16")))).
  rewrite COMPANIES_members. vm_compute. intros [H|[H|[H|[H|H]]]]; discriminate H.
Defined.

(** C3: a line that splits into fewer than 4 fields is skipped: no error,
    and the loop state, counter included, is unchanged.  An iteration raises
    exactly when the line has at least 4 fields, its field 1 is on the
    watchlist and [int] refuses its field 2.  For a valid timestamp the run
    raises exactly when one of its lines is of that kind. *)
Theorem line_error_policy (ts : datetime) (line : string) (st : loop_state) :
  ((length (fields line) < 4)%nat → process_line ts line st = inr st)
  ∧ ((∃ e, process_line ts line st = inl e) ↔
       (4 ≤ length (fields line))%nat
       ∧ title_field line ∈ COMPANIES
       ∧ Py.int (views_field line) = None)
  ∧ (∀ lines out et,
       strptime (Py.remove_char "-" et) = inr ts →
       (∃ e, outcome (transform_pageviews lines out et) = inl e) ↔
       (∃ l, l ∈ lines
             ∧ (4 ≤ length (fields l))%nat
             ∧ title_field l ∈ COMPANIES
             ∧ Py.int (views_field l) = None)).
Proof.
  assert (∀ l, fatal l = true ↔
            (4 ≤ length (fields l))%nat ∧ title_field l ∈ COMPANIES
            ∧ Py.int (views_field l) = None) as Hfatal.
  { intros l. unfold fatal, watched, well_formed.
    rewrite !andb_true_iff, !bool_decide_eq_true, Nat.leb_le. tauto. }
  split; [|split].
  - intros Hlt. apply process_line_skip. unfold watched, well_formed.
    apply andb_false_iff. left. apply Nat.leb_gt. lia.
  - rewrite <- Hfatal. split.
    + intros [e He]. destruct (fatal line) eqn:Hf; [done|].
      destruct (watched line) eqn:Hw.
      * by rewrite (process_line_emit _ _ _ Hw Hf) in He.
      * by rewrite (process_line_skip _ _ _ Hw) in He.
    + intros Hf. rewrite (process_line_fatal _ _ _ Hf). eauto.
  - intros lines out et Hts.
    pose proof (records_spec lines out et) as H. rewrite Hts in H. split.
    + intros [e He].
      destruct H as [[_ H]|(pre & bad & post & -> & _ & Hbad & _)].
      * rewrite H in He. discriminate.
      * exists bad. split; [|by apply Hfatal].
        apply elem_of_app. right. left.
    + intros (l & Hin & Hl).
      destruct H as [[Hok _]|(pre & bad & post & _ & _ & _ & ->)]; [|eauto].
      rewrite forallb_forall in Hok. apply Hfatal in Hl.
      apply list_elem_of_In, Hok in Hin. rewrite Hl in Hin. discriminate.
Qed.

Lemma line_error_policy_witness :
  process_line (mk_datetime 2025 12 10 16) "en X" (mk_loop 5 [])
  = inr (mk_loop 5 []).
Proof.
  apply (proj1 (line_error_policy (mk_datetime 2025 12 10 16) "en X"
                  (mk_loop 5 []))).
  vm_compute. lia.
Defined.

(** C9: every record of a run carries the same (year, month, day, hour),
    the fields of the timestamp parsed from the [event_time] argument; the
    lines of the input have no part in them: with the same [event_time],
    the records of any other input carry the same four cells. *)
Theorem time_fields_from_timestamp (lines : list string) (out et : string)
    (ts : datetime) :
  strptime (Py.remove_char "-" et) = inr ts →
  Forall (λ r, row_time r = time_cells ts)
    (records (transform_pageviews lines out et))
  ∧ (∀ lines' out' r r',
       r ∈ records (transform_pageviews lines out et) →
       r' ∈ records (transform_pageviews lines' out' et) →
       row_time r = row_time r').
Proof.
  intros Hts. split; [by apply records_time|].
  intros lines' out' r r' Hr Hr'.
  pose proof (records_time lines out et ts Hts) as H.
  pose proof (records_time lines' out' et ts Hts) as H'.
  rewrite Forall_forall in H, H'.
  by rewrite (H r Hr), (H' r' Hr').
Qed.

Lemma time_fields_from_timestamp_witness :
  Forall (λ r, row_time r = [PInt 2025; PInt 12; PInt 10; PInt 16])
    (records (transform_pageviews ["en Google 7 0"; "2024 Amazon 3 1999"]
                "out.csv" "20251210-16")).
Proof.
  apply (time_fields_from_timestamp _ "out.csv" "20251210-16"
           (mk_datetime 2025 12 10 16)).
  reflexivity.
Defined.

(** C10: the line "23 Apple_Inc. 451 999" with timestamp "20251210-16" gives
    exactly one record, (1, "Apple_Inc.", 451, 2025, 12, 10, 16), after the
    header, with or without the newline that ends the line. *)
Theorem example_apple_line (out : string) :
  transform_pageviews ["23 Apple_Inc. 451 999"] out "20251210-16"
  = mk_run (inr out)
      (Some [header;
             [PInt 1; PStr "Apple_Inc."; PInt 451;
              PInt 2025; PInt 12; PInt 10; PInt 16]])
  ∧ records (transform_pageviews ["23 Apple_Inc. 451 999" +:+ LF] out
               "20251210-16")
    = [[PInt 1; PStr "Apple_Inc."; PInt 451;
        PInt 2025; PInt 12; PInt 10; PInt 16]].
Proof. split; reflexivity. Qed.

(** ** Parsing the timestamp *)

(** A property of characters checked on all 256 of them. *)
Lemma ascii_all (P : ascii → bool) :
  forallb (λ n, P (ascii_of_nat n)) (seq 0 256) = true → ∀ c, P c = true.
Proof.
  intros H c. rewrite forallb_forall in H.
  rewrite <- (ascii_nat_embedding c). apply H, in_seq.
  pose proof (nat_ascii_bounded c). lia.
Qed.

Lemma isdigit_cases c :
  Py.isdigit c = true →
  c ∈ ["0"; "1"; "2"; "3"; "4"; "5"; "6"; "7"; "8"; "9"]%char.
Proof.
  revert c.
  assert (∀ c, implb (Py.isdigit c)
                 (bool_decide (c ∈ ["0"; "1"; "2"; "3"; "4"; "5"; "6"; "7";
                                    "8"; "9"]%char)) = true) as H
    by (apply ascii_all; vm_compute; reflexivity).
  intros c Hc. specialize (H c). rewrite Hc in H. simpl in H.
  by apply bool_decide_eq_true in H.
Qed.

Ltac digit_cases H :=
  apply isdigit_cases in H;
  repeat (apply elem_of_cons in H as [->|H]); [..|by apply elem_of_nil in H].

Lemma isdigit_not_space c : Py.isdigit c = true → Py.int_space c = false.
Proof. intros H. digit_cases H; reflexivity. Qed.

Lemma rstrip_by_id p s :
  string_forall (λ c, negb (p c)) s = true → Py.rstrip_by p s = s.
Proof.
  induction s as [|c s IH]; simpl; [done|].
  intros [Hc Hs]%andb_true_iff. rewrite (IH Hs).
  apply negb_true_iff in Hc. rewrite Hc. by destruct s.
Qed.

Lemma int_digits_all s b acc n :
  string_forall Py.isdigit s = true →
  s ≠ EmptyString ∨ b = true →
  Py.int_digits s b acc n = Some (dec_from acc s, (n + String.length s)%nat).
Proof.
  revert b acc n. induction s as [|c s IH]; intros b acc n; simpl.
  - intros _ [?| ->]; [done|]. by rewrite Nat.add_0_r.
  - intros [Hc Hs]%andb_true_iff _. rewrite Hc, (IH _ _ _ Hs) by (by right).
    do 2 f_equal. lia.
Qed.

(** [int] on a non-empty string of digits gives its decimal value. *)
Lemma int_of_digits s :
  s ≠ EmptyString → string_forall Py.isdigit s = true →
  (String.length s ≤ Py.max_str_digits)%nat →
  Py.int s = Some (dec s).
Proof.
  intros Hne Hd Hlen. unfold Py.int.
  assert (Py.lstrip_by Py.int_space s = s) as ->.
  { destruct s as [|c s]; [done|]. simpl in *.
    apply andb_true_iff in Hd as [Hc _]. by rewrite (isdigit_not_space _ Hc). }
  rewrite rstrip_by_id.
  2:{ clear Hne Hlen. induction s as [|c s IH]; simpl in *; [done|].
      apply andb_true_iff in Hd as [Hc Hs].
      by rewrite (isdigit_not_space _ Hc), IH. }
  assert (Py.int_unsigned s = Some (dec s)) as Hu.
  { unfold Py.int_unsigned. rewrite int_digits_all by auto. simpl.
    destruct (Nat.ltb_spec Py.max_str_digits (String.length s)); [lia|done]. }
  destruct s as [|c s]; [done|]. simpl in Hd.
  apply andb_true_iff in Hd as [Hc _]. digit_cases Hc; exact Hu.
Qed.

(** The four groups on a fixed-width string. *)
Lemma match_Y {A} c0 c1 c2 c3 rest (k : string → string → option A) :
  Py.isdigit c0 = true → Py.isdigit c1 = true →
  Py.isdigit c2 = true → Py.isdigit c3 = true →
  match_alts re_Y (String c0 (String c1 (String c2 (String c3 rest)))) k
  = k (String c0 (String c1 (String c2 (String c3 EmptyString)))) rest.
Proof.
  intros H0 H1 H2 H3. simpl. unfold digit. rewrite H0, H1, H2, H3. simpl.
  by destruct (k _ _).
Qed.

Lemma match_m {A} c1 c2 rest (k : string → string → option A) r :
  Py.isdigit c1 = true → Py.isdigit c2 = true →
  1 <= dec (two c1 c2) <= 12 →
  k (two c1 c2) rest = Some r →
  match_alts re_m (String c1 (String c2 rest)) k = Some r.
Proof.
  intros H1 H2 Hv Hk. digit_cases H1; digit_cases H2;
    vm_compute in Hv; try (exfalso; clear -Hv; destruct Hv as [Ha Hb];
                           (by apply Ha) || (by apply Hb));
    simpl; unfold two in Hk; by rewrite Hk.
Qed.

Lemma match_d {A} c1 c2 rest (k : string → string → option A) r :
  Py.isdigit c1 = true → Py.isdigit c2 = true →
  1 <= dec (two c1 c2) <= 31 →
  k (two c1 c2) rest = Some r →
  match_alts re_d (String c1 (String c2 rest)) k = Some r.
Proof.
  intros H1 H2 Hv Hk. digit_cases H1; digit_cases H2;
    vm_compute in Hv; try (exfalso; clear -Hv; destruct Hv as [Ha Hb];
                           (by apply Ha) || (by apply Hb));
    simpl; unfold two in Hk; by rewrite Hk.
Qed.

Lemma match_H {A} c1 c2 rest (k : string → string → option A) r :
  Py.isdigit c1 = true → Py.isdigit c2 = true →
  0 <= dec (two c1 c2) <= 23 →
  k (two c1 c2) rest = Some r →
  match_alts re_H (String c1 (String c2 rest)) k = Some r.
Proof.
  intros H1 H2 Hv Hk. digit_cases H1; digit_cases H2;
    vm_compute in Hv; try (exfalso; clear -Hv; destruct Hv as [Ha Hb];
                           (by apply Ha) || (by apply Hb));
    simpl; unfold two in Hk; by rewrite Hk.
Qed.

(** A string that matches the fixed-width pattern parses to its fields. *)
Lemma strptime_fixed_width s :
  matches_YYYYMMDDHH s = true → strptime s = inr (fixed_fields s).
Proof.
  unfold matches_YYYYMMDDHH.
  intros [[Hlen Hdig]%andb_true_iff Hval]%andb_true_iff.
  apply Nat.eqb_eq in Hlen.
  destruct s as [|c0 [|c1 [|c2 [|c3 [|c4 [|c5 [|c6 [|c7 [|c8 [|c9 [|]]]]]]]]]]];
    try discriminate Hlen. clear Hlen.
  simpl in Hdig. repeat (apply andb_true_iff in Hdig as [?Hd Hdig]).
  unfold fixed_fields in *. simpl substring in *. simpl in Hval.
  apply andb_true_iff in Hval as [[Hdate Hh0]%andb_true_iff Hh1].
  pose proof Hdate as Hr. unfold valid_date in Hr.
  rewrite !andb_true_iff, !Z.leb_le in Hr. apply Z.leb_le in Hh0, Hh1.
  assert (days_in_month (dec (String c0 (String c1 (String c2 (String c3 EmptyString)))))
            (dec (two c4 c5)) <= 31) as Hdim.
  { unfold days_in_month. repeat case_match; lia. }
  unfold two in Hdim.
  unfold strptime, match_format. rewrite match_Y by done.
  erewrite match_m; [| done | done | unfold two; lia |].
  2:{ apply match_d; [done | done | unfold two; lia |].
      apply match_H; [done | done | unfold two; lia |]. reflexivity. }
  cbv beta iota. unfold two.
  rewrite !int_of_digits by (try done; simpl; try (by rewrite ?Hd, ?Hd0, ?Hd1, ?Hd2, ?Hd3, ?Hd4, ?Hd5, ?Hd6, ?Hd7, ?Hd8); unfold Py.max_str_digits; lia).
  by rewrite Hdate.
Qed.

(** What a successful match says about the string. *)
Lemma match_seq_Some cs s m rest :
  match_seq cs s = Some (m, rest) →
  s = m +:+ rest ∧ String.length m = length cs
  ∧ (∀ q, Forall (λ p : cls, ∀ c, p c = true → q c = true) cs →
          string_forall q m = true).
Proof.
  revert s m. induction cs as [|p cs IH]; intros s m; simpl.
  - intros [= <- <-]. done.
  - destruct s as [|c s]; [done|]. destruct (p c) eqn:Hp; [|done].
    destruct (match_seq cs s) as [[m' rest']|] eqn:Hm; [|done].
    intros [= <- <-]. destruct (IH _ _ Hm) as (-> & Hlen & Hall).
    simpl. rewrite Hlen. repeat split; try done.
    intros q [Hq Hqs]%Forall_cons. by rewrite (Hq _ Hp), Hall.
Qed.

Lemma match_alts_Some {A} alts s (k : string → string → option A) r :
  match_alts alts s k = Some r →
  ∃ a m rest, a ∈ alts ∧ match_seq a s = Some (m, rest) ∧ k m rest = Some r.
Proof.
  induction alts as [|a alts IH]; simpl; [done|].
  destruct (match_seq a s) as [[m rest]|] eqn:Hm; simpl.
  - destruct (k m rest) as [r'|] eqn:Hk.
    + intros [= <-]. exists a, m, rest. split; [left|done].
    + intros (a' & m' & rest' & ? & ? & ?)%IH. exists a', m', rest'.
      split; [by right|done].
  - intros (a' & m' & rest' & ? & ? & ?)%IH. exists a', m', rest'.
    split; [by right|done].
Qed.

Lemma cls_ok (p : cls) :
  forallb (λ n, implb (p (ascii_of_nat n)) (digit_or_space (ascii_of_nat n)))
    (seq 0 256) = true →
  ∀ c, p c = true → digit_or_space c = true.
Proof.
  intros H c Hp.
  pose proof (ascii_all (λ c, implb (p c) (digit_or_space c)) H c) as Hc.
  simpl in Hc. by rewrite Hp in Hc.
Qed.

Lemma directives_ok :
  directive_ok 4 4 re_Y ∧ directive_ok 1 2 re_m ∧ directive_ok 1 2 re_d
  ∧ directive_ok 1 2 re_H.
Proof.
  unfold directive_ok, re_Y, re_m, re_d, re_H.
  repeat (apply conj || apply Forall_cons || apply Forall_nil
          || (simpl; lia) || (apply cls_ok; vm_compute; reflexivity)).
Qed.

Lemma match_directive_Some {A} lo hi d s (k : string → string → option A) r :
  directive_ok lo hi d → match_alts d s k = Some r →
  ∃ m rest, s = m +:+ rest ∧ (lo ≤ String.length m ≤ hi)%nat
            ∧ string_forall digit_or_space m = true ∧ k m rest = Some r.
Proof.
  intros Hok (a & m & rest & Hin & Hm & Hk)%match_alts_Some.
  unfold directive_ok in Hok. rewrite Forall_forall in Hok.
  destruct (Hok _ Hin) as [Hlen Hcls].
  destruct (match_seq_Some _ _ _ _ Hm) as (-> & Hl & Hall).
  exists m, rest. rewrite Hl. auto.
Qed.

Lemma string_forall_app p s1 s2 :
  string_forall p (s1 +:+ s2) = string_forall p s1 && string_forall p s2.
Proof. induction s1 as [|c s1 IH]; simpl; [done|]. by rewrite IH, andb_assoc. Qed.

Lemma string_length_app s1 s2 :
  String.length (s1 +:+ s2) = (String.length s1 + String.length s2)%nat.
Proof. induction s1 as [|c s1 IH]; simpl; [done|]. by rewrite IH. Qed.

(** Whatever [strptime] accepts is plausible. *)
Lemma strptime_accepts_plausible s t :
  strptime s = inr t → plausible s = true.
Proof.
  unfold strptime, match_format.
  destruct (match_alts re_Y s _) as [[[[[Y m] d] H] rest]|] eqn:Hm; [|done].
  destruct rest; [|done]. intros _.
  destruct directives_ok as (HY & Hmo & Hd & HH).
  apply (match_directive_Some _ _ _ _ _ _ HY) in Hm
    as (gY & s1 & -> & HlY & HcY & Hm).
  apply (match_directive_Some _ _ _ _ _ _ Hmo) in Hm
    as (gm & s2 & -> & Hlm & Hcm & Hm).
  apply (match_directive_Some _ _ _ _ _ _ Hd) in Hm
    as (gd & s3 & -> & Hld & Hcd & Hm).
  apply (match_directive_Some _ _ _ _ _ _ HH) in Hm
    as (gH & s4 & -> & HlH & HcH & Hm).
  injection Hm as _ _ _ _ ->.
  unfold plausible. rewrite !string_forall_app, !string_length_app.
  rewrite HcY, Hcm, Hcd, HcH, !andb_true_iff, !Nat.leb_le.
  cbn [String.length string_forall]. repeat split; lia.
Qed.

(** A failed parse ends the run before the output file is opened. *)
Lemma bad_timestamp_no_output lines out et e :
  strptime (Py.remove_char "-" et) = inl e →
  transform_pageviews lines out et = mk_run (inl e) None.
Proof. unfold transform_pageviews. by intros ->. Qed.

(** C8, as the code has it: a timestamp that [strptime] refuses after the
    hyphens are removed ends the run with that [ValueError] before the
    output file is opened, so without a header or a record; [strptime]
    refuses at least every string that is not 7 to 10 characters of digits
    and spaces; and a string that is, after removal of the hyphens, ten
    digits YYYYMMDDHH naming a date and an hour parses to those fields,
    which every record of the run then carries. *)
Theorem timestamp_parsing (lines : list string) (out et : string) :
  let s := Py.remove_char "-" et in
  (∀ e, strptime s = inl e →
        transform_pageviews lines out et = mk_run (inl e) None)
  ∧ (plausible s = false → ∃ e, strptime s = inl e)
  ∧ (matches_YYYYMMDDHH s = true →
       strptime s = inr (fixed_fields s)
       ∧ Forall (λ r, row_time r = time_cells (fixed_fields s))
           (records (transform_pageviews lines out et))).
Proof.
  intros s. split; [|split].
  - intros e. apply bad_timestamp_no_output.
  - intros Hp. destruct (strptime s) as [e|t] eqn:Hs; [eauto|].
    apply strptime_accepts_plausible in Hs. congruence.
  - intros Hm. pose proof (strptime_fixed_width _ Hm) as Hs.
    split; [done|]. by apply records_time.
Qed.

Lemma timestamp_parsing_witness :
  strptime "2025121016" = inr (mk_datetime 2025 12 10 16)
  ∧ transform_pageviews ["en Google 7 0"] "out.csv" "2025-12-32-16"
    = mk_run (inl (ValueError "unconverted data remains")) None.
Proof.
  split.
  - apply (proj2 (proj2 (timestamp_parsing [] "out.csv" "20251210-16"))).
    reflexivity.
  - apply (proj1 (timestamp_parsing ["en Google 7 0"] "out.csv" "2025-12-32-16")).
    reflexivity.
Defined.

(** C8 as stated does not hold: "202512106" does not match the pattern
    YYYYMMDDHH, yet the run does not fail: [strptime] reads a one-digit
    hour and the records are written. *)
Lemma timestamp_pattern_counterexample :
  ¬ (∀ lines out et,
       matches_YYYYMMDDHH (Py.remove_char "-" et) = false →
       ∃ e, outcome (transform_pageviews lines out et) = inl e).
Proof.
  intros H.
  destruct (H ["en Google 7 0"] "out.csv" "202512106" eq_refl) as [e He].
  vm_compute in He. discriminate He.
Qed.

Import Db DbSpec.

(** ** The Loader and the Analyzer on examples *)

Example load_fresh_world :
  let r := load_to_postgres "pageviews.csv" "postgres_connection"
             Examples.fresh_world in
  r.1 = Ok tt
  ∧ database r.2 = Some Examples.loaded_table
  ∧ pipeline_log r.2
    = [(INFO, "Loading transformed data into Postgres | file=pageviews.csv");
       (INFO, "Data successfully loaded into Postgres")].
Proof. cbv zeta. repeat split; vm_compute; reflexivity. Qed.

(** The connection breaks at the third statement: nothing is kept. *)
Example load_connection_lost :
  let r := load_to_postgres "pageviews.csv" "postgres_connection"
             (set_faults (Some 2%nat) Examples.fresh_world) in
  r.1 = Raise connection_lost
  ∧ database r.2 = None
  ∧ length (trace r.2) = 8%nat
  ∧ drop 5 (trace r.2) = [EvRollback; EvCursorClose; EvConnClose].
Proof. cbv zeta. repeat split; vm_compute; reflexivity. Qed.

Example load_missing_file :
  let r := load_to_postgres "missing.csv" "postgres_connection"
             Examples.fresh_world in
  r.1 = Raise (FileNotFoundError "missing.csv")
  ∧ database r.2 = None
  ∧ trace r.2 = [EvConnect "postgres_connection"; EvCursor;
                 EvExecute CreateTableIfNotExists;
                 EvRollback; EvCursorClose; EvConnClose].
Proof. cbv zeta. repeat split; vm_compute; reflexivity. Qed.

Example analyze_loaded_world :
  let r := get_most_viewed_page "postgres_connection" Examples.loaded_world in
  r.1 = Ok (result_dict (mk_top "Google" 2025 12 10 16 12))
  ∧ analysis_log r.2
    = Some ("Most viewed Wikipedia page: 'Google' | Total views: 12 | "
            +:+ "Time window: 2025-12-10 at 16:00" +:+ LF).
Proof. cbv zeta. repeat split; vm_compute; reflexivity. Qed.

(** ** The connection block *)

Lemma same_outside_refl w : same_outside w w.
Proof. by repeat split. Qed.

Lemma same_outside_trans w1 w2 w3 :
  same_outside w1 w2 → same_outside w2 w3 → same_outside w1 w3.
Proof. unfold same_outside. intros H1 H2. destruct_and!. repeat split; congruence. Qed.

(** What [postgres_cursor] makes of the outcome of its block. *)
Lemma postgres_cursor_run {A} conn_id (body : M A) w :
  postgres_cursor conn_id body w =
    match body (with_cursor (connected conn_id w)) with
    | (Ok a, w') => (Ok a, connection_closed (cursor_closed (committed w')))
    | (Raise e, w') =>
        (Raise e,
         connection_closed
           (cursor_closed
              (add_log ERROR "Postgres transaction failed and was rolled back"
                 (rolled_back w'))))
    end.
Proof.
  unfold postgres_cursor, bind, try_finally, try_except, logger_debug, ret,
    get_conn, connection_cursor, modify. simpl.
  by destruct (body _) as [[a|e] w'].
Qed.

Lemma cursor_execute_run s w :
  same_outside w (cursor_execute s w).2
  ∧ trace (cursor_execute s w).2 = trace w ++ [EvExecute s]
  ∧ ((cursor_execute s w).1 = Ok tt →
       ∃ rs, run_statement (int4in w) (tie_break w) s (working w)
             = inr (working (cursor_execute s w).2, rs)
             ∧ result_set (cursor_execute s w).2 = rs).
Proof.
  unfold cursor_execute. simpl.
  destruct (faults w) as [[|n]|]; simpl;
    try (split; [by repeat split|split; [done|done]]);
    destruct (run_statement _ _ _ _) as [e|[t rs]]; simpl;
    (split; [by repeat split|split; [done|]]); try done; intros _; by exists rs.
Qed.

Lemma insert_row_run row w :
  match values_of_row row with
  | Some v => insert_row row w = cursor_execute (InsertOnConflictDoNothing v) w
  | None => ∃ k, insert_row row w = (Raise (KeyError k), w)
  end.
Proof.
  unfold insert_row, values_of_row, bind, getitem, raise, ret.
  repeat (match goal with
          | |- context [ row !! ?k ] => destruct (row !! k); simpl; eauto
          end).
Qed.

(** The loop over the rows: it touches the transaction only, executes
    INSERT statements only, and when it ends normally it has executed the
    INSERT of every row, each with effect on the table of the transaction. *)
Lemma insert_loop_run rows w :
  same_outside w (for_each rows insert_row w).2
  ∧ ∃ stmts,
      trace (for_each rows insert_row w).2 = trace w ++ (EvExecute <$> stmts)
      ∧ ((for_each rows insert_row w).1 = Ok tt →
           ∃ vs, mapM values_of_row rows = Some vs
                 ∧ stmts = InsertOnConflictDoNothing <$> vs
                 ∧ apply_statements (int4in w) (tie_break w) stmts (working w)
                   = inr (working (for_each rows insert_row w).2)).
Proof.
  revert w. induction rows as [|row rows IH]; intros w; simpl.
  - split; [apply same_outside_refl|]. exists []. simpl.
    rewrite app_nil_r. split; [done|]. intros _. by exists [].
  - unfold bind. pose proof (insert_row_run row w) as Hrow.
    destruct (values_of_row row) as [v|] eqn:Hv.
    + rewrite Hrow.
      destruct (cursor_execute_run (InsertOnConflictDoNothing v) w)
        as (Hout & Htr & Hok).
      destruct (cursor_execute _ w) as [[[]|e] w1] eqn:Hexec; simpl in *.
      * destruct (IH w1) as (Hout' & stmts & Htr' & Hok').
        split; [by eapply same_outside_trans|].
        exists (InsertOnConflictDoNothing v :: stmts).
        rewrite Htr', Htr, <- app_assoc. split; [done|].
        intros Hres. destruct (Hok' Hres) as (vs & Hvs & -> & Happ).
        destruct (Hok eq_refl) as (rs & Hrun & _).
        exists (v :: vs). rewrite Hvs. simpl. split; [done|]. split; [done|].
        unfold run_statement in Hrun. simpl. rewrite Hrun. simpl.
        destruct Hout as (_ & _ & _ & <- & <- & _). done.
      * split; [done|]. exists [InsertOnConflictDoNothing v]. done.
    + destruct Hrow as [k ->]. simpl. split; [apply same_outside_refl|].
      exists []. simpl. by rewrite app_nil_r.
Qed.

(** The same for the whole block, which first creates the table. *)
Lemma load_block_run csv_file w :
  same_outside w (load_block csv_file w).2
  ∧ ∃ stmts,
      trace (load_block csv_file w).2 = trace w ++ (EvExecute <$> stmts)
      ∧ ((load_block csv_file w).1 = Ok tt →
           ∃ rows vs,
             csv_files w !! csv_file = Some rows
             ∧ mapM values_of_row rows = Some vs
             ∧ stmts = CreateTableIfNotExists :: (InsertOnConflictDoNothing <$> vs)
             ∧ apply_statements (int4in w) (tie_break w) stmts (working w)
               = inr (working (load_block csv_file w).2)).
Proof.
  unfold load_block, bind.
  destruct (cursor_execute_run CreateTableIfNotExists w) as (Hout & Htr & Hok).
  destruct (cursor_execute _ w) as [[[]|e] w1] eqn:Hexec; simpl in *.
  2:{ split; [done|]. by exists [CreateTableIfNotExists]. }
  destruct (Hok eq_refl) as (rs & Hrun & _).
  unfold read_csv. pose proof Hout as (_ & _ & _ & Hi & Ht & Hf & _).
  rewrite Hf. destruct (csv_files w !! csv_file) as [rows|] eqn:Hfile.
  2:{ split; [done|]. by exists [CreateTableIfNotExists]. }
  destruct (insert_loop_run rows w1) as (Hout' & stmts & Htr' & Hok').
  split; [by eapply same_outside_trans|].
  exists (CreateTableIfNotExists :: stmts).
  rewrite Htr', Htr, <- app_assoc. split; [done|].
  intros Hres. destruct (Hok' Hres) as (vs & Hvs & -> & Happ).
  exists rows, vs. split; [done|]. split; [done|]. split; [done|].
  simpl. rewrite Hrun. simpl. by rewrite <- Hi, <- Ht.
Qed.

(** One call of the Loader, in terms of its block. *)
Lemma load_to_postgres_run csv_file conn_id w :
  load_to_postgres csv_file conn_id w =
    match load_block csv_file
            (with_cursor (connected conn_id
               (add_log INFO
                  ("Loading transformed data into Postgres | file=" +:+ csv_file) w)))
    with
    | (Ok _, w') =>
        (Ok tt,
         add_log INFO "Data successfully loaded into Postgres"
           (connection_closed (cursor_closed (committed w'))))
    | (Raise e, w') =>
        (Raise e,
         connection_closed
           (cursor_closed
              (add_log ERROR "Postgres transaction failed and was rolled back"
                 (rolled_back w'))))
    end.
Proof.
  unfold load_to_postgres, bind. unfold logger_info, modify.
  rewrite postgres_cursor_run. by destruct (load_block _ _) as [[[]|e] w'].
Qed.

(** ** Theorems about the Loader *)

(** C4: one call of the Loader opens one connection and one cursor, executes
    its statements, ends the transaction once, by COMMIT when the call
    returns and by ROLLBACK when it raises, and closes the cursor and the
    connection, in that order and on both paths.  When it returns, the
    statements were the table creation followed by the INSERT of every row of
    the file, and the committed table is the result of all of them.  When it
    raises, the exception is the one the block raised and the committed
    table is what it was before the call. *)
Theorem load_is_transactional (csv_file conn_id : string) (w : world) :
  let start :=
    with_cursor (connected conn_id
      (add_log INFO ("Loading transformed data into Postgres | file=" +:+ csv_file) w)) in
  let res := (load_to_postgres csv_file conn_id w).1 in
  let w' := (load_to_postgres csv_file conn_id w).2 in
  ∃ stmts,
    trace w' = trace w ++ [EvConnect conn_id; EvCursor]
               ++ (EvExecute <$> stmts)
               ++ [match res with Ok _ => EvCommit | Raise _ => EvRollback end;
                   EvCursorClose; EvConnClose]
    ∧ open_conns w' = open_conns w
    ∧ open_cursors w' = open_cursors w
    ∧ match res with
      | Ok _ =>
          ∃ rows vs,
            csv_files w !! csv_file = Some rows
            ∧ mapM values_of_row rows = Some vs
            ∧ stmts = CreateTableIfNotExists :: (InsertOnConflictDoNothing <$> vs)
            ∧ apply_statements (int4in w) (tie_break w) stmts (database w)
              = inr (database w')
      | Raise e =>
          (load_block csv_file start).1 = Raise e
          ∧ database w' = database w
          ∧ last (pipeline_log w')
            = Some (ERROR, "Postgres transaction failed and was rolled back")
      end.
Proof.
  intros start res w'. subst res w'.
  rewrite load_to_postgres_run. fold start.
  destruct (load_block_run csv_file start) as (Hout & stmts & Htr & Hok).
  exists stmts.
  destruct Hout as (Hdb & Hco & Hcu & Hi & Ht & Hf & Hlog & _).
  destruct (load_block csv_file start) as [[[]|e] w1] eqn:Hblock; simpl in *.
  - rewrite Htr, Hco, Hcu, <- !app_assoc. simpl.
    repeat (split; [done|]).
    destruct (Hok eq_refl) as (rows & vs & ? & ? & ? & ?). by exists rows, vs.
  - rewrite Htr, Hco, Hcu, <- !app_assoc. simpl.
    repeat (split; [done|]). apply last_snoc.
Qed.

(** *** Loading with a store that stays up *)

Lemma insert_loop_plan rows w t :
  faults w = None → working w = Some t →
  faults (for_each rows insert_row w).2 = None
  ∧ match mapM (row_plan (int4in w)) rows with
    | Some rs =>
        (for_each rows insert_row w).1 = Ok tt
        ∧ working (for_each rows insert_row w).2 = Some (insert_all rs t)
    | None => ∃ e, (for_each rows insert_row w).1 = Raise e
    end.
Proof.
  revert w t. induction rows as [|row rows IH]; intros w t Hf Hw; simpl.
  - done.
  - unfold bind. pose proof (insert_row_run row w) as Hrow.
    assert (row_plan (int4in w) row
            = values_of_row row ≫= λ v,
                match row_of_values (int4in w) v with
                | inr r => Some r
                | inl _ => None
                end) as Hrp by done.
    destruct (values_of_row row) as [v|]; simpl in Hrp.
    2:{ destruct Hrow as [k ->]. rewrite Hrp. simpl. eauto. }
    rewrite Hrow. unfold cursor_execute. simpl. rewrite Hf, Hw. simpl.
    destruct (row_of_values (int4in w) v) as [e|r]; rewrite Hrp; simpl;
      [eauto|].
    match goal with |- context [for_each rows insert_row ?w1] =>
      destruct (IH w1 (insert_on_conflict_do_nothing r t) eq_refl eq_refl)
        as [Hf' Hplan]; simpl in Hplan end.
    split; [done|].
    by destruct (mapM (row_plan (int4in w)) rows) as [rs|].
Qed.

Lemma load_block_plan csv_file w :
  faults w = None →
  faults (load_block csv_file w).2 = None
  ∧ match file_plan w csv_file with
    | Some rs =>
        (load_block csv_file w).1 = Ok tt
        ∧ working (load_block csv_file w).2
          = Some (insert_all rs (default [] (working w)))
    | None => ∃ e, (load_block csv_file w).1 = Raise e
    end.
Proof.
  intros Hf.
  assert (cursor_execute CreateTableIfNotExists w
          = (Ok tt,
             set_result_set []
               (set_working (Some (default [] (working w)))
                  (set_faults None
                     (add_event (EvExecute CreateTableIfNotExists) w)))))
    as Hcreate.
  { unfold cursor_execute. simpl. rewrite Hf. simpl.
    by destruct (working w). }
  unfold load_block, bind, file_plan. rewrite Hcreate.
  unfold read_csv. simpl.
  destruct (csv_files w !! csv_file) as [rows|]; simpl; [|eauto].
  match goal with |- context [for_each rows insert_row ?w1] =>
    destruct (insert_loop_plan rows w1 (default [] (working w)) eq_refl eq_refl)
      as [? Hp]; simpl in Hp end.
  split; [done|]. by destruct (mapM _ rows).
Qed.

(** With no fault, a call of the Loader is decided by the file: either
    every row can be inserted and the call commits them all, or the call
    raises and the committed table stays. *)
Lemma load_no_faults csv_file conn_id w :
  faults w = None →
  let res := (load_to_postgres csv_file conn_id w).1 in
  let w' := (load_to_postgres csv_file conn_id w).2 in
  faults w' = None ∧ csv_files w' = csv_files w ∧ int4in w' = int4in w
  ∧ tie_break w' = tie_break w
  ∧ match file_plan w csv_file with
    | Some rs =>
        res = Ok tt ∧ database w' = Some (insert_all rs (stored w))
    | None => (∃ e, res = Raise e) ∧ database w' = database w
    end.
Proof.
  intros Hf res w'. subst res w'. rewrite load_to_postgres_run.
  set (start := with_cursor _).
  destruct (load_block_run csv_file start)
    as ((Hdb & _ & _ & Hi & Ht & Hfi & _) & _).
  destruct (load_block_plan csv_file start Hf) as [Hf' Hplan].
  change (file_plan start csv_file) with (file_plan w csv_file) in Hplan.
  change (working start) with (database w) in Hplan. fold (stored w) in Hplan.
  destruct (load_block csv_file start) as [[[]|e] w1]; simpl in *.
  - repeat (split; [done|]). destruct (file_plan w csv_file).
    + by destruct Hplan as [_ ->].
    + by destruct Hplan.
  - repeat (split; [done|]). destruct (file_plan w csv_file).
    + by destruct Hplan.
    + split; [eauto|done].
Qed.

(** *** Conflict-skip inserts *)

Lemma has_id_app i t1 t2 : has_id i (t1 ++ t2) = has_id i t1 || has_id i t2.
Proof. unfold has_id. apply existsb_app. Qed.

Lemma insert_keeps_ids i r t :
  has_id i t = true → has_id i (insert_on_conflict_do_nothing r t) = true.
Proof.
  intros H. unfold insert_on_conflict_do_nothing.
  destruct (has_id (r_id r) t); [done|]. by rewrite has_id_app, H.
Qed.

Lemma insert_has_id r t :
  has_id (r_id r) (insert_on_conflict_do_nothing r t) = true.
Proof.
  unfold insert_on_conflict_do_nothing.
  destruct (has_id (r_id r) t) eqn:H; [done|].
  rewrite has_id_app. simpl. rewrite Z.eqb_refl. by rewrite orb_true_r.
Qed.

Lemma insert_all_keeps_ids i rs t :
  has_id i t = true → has_id i (insert_all rs t) = true.
Proof.
  revert t. induction rs as [|r rs IH]; intros t H; simpl; [done|].
  by apply IH, insert_keeps_ids.
Qed.

Lemma insert_all_has_ids rs t r :
  r ∈ rs → has_id (r_id r) (insert_all rs t) = true.
Proof.
  revert t. induction rs as [|r' rs IH]; intros t; simpl.
  - by intros ?%elem_of_nil.
  - intros [->|Hin]%elem_of_cons; [|by apply IH].
    apply insert_all_keeps_ids, insert_has_id.
Qed.

Lemma insert_all_present rs t :
  (∀ r, r ∈ rs → has_id (r_id r) t = true) → insert_all rs t = t.
Proof.
  revert t. induction rs as [|r rs IH]; intros t H; simpl; [done|].
  unfold insert_on_conflict_do_nothing at 1.
  rewrite (H r) by left. apply IH. intros r' Hr'. apply H. by right.
Qed.

(** Inserting the same rows again changes nothing. *)
Lemma insert_all_idempotent rs t :
  insert_all rs (insert_all rs t) = insert_all rs t.
Proof. apply insert_all_present. intros r Hr. by apply insert_all_has_ids. Qed.

(** C5: with a store that stays up, and whatever the table holds at first,
    nothing in particular, loading a file a second time leaves the committed
    table, hence its row count, as the first load left it, and the second
    load returns when the first did.  An INSERT whose page_title_id is
    already in the table is executed without error and leaves the table,
    the row that holds the key included, as it is. *)
Theorem reload_is_idempotent (csv_file conn_id : string) (w : world) :
  faults w = None →
  let first := load_to_postgres csv_file conn_id w in
  let second := load_to_postgres csv_file conn_id first.2 in
  database second.2 = database first.2
  ∧ length (stored second.2) = length (stored first.2)
  ∧ (first.1 = Ok tt → second.1 = Ok tt)
  ∧ (∀ v r t,
       row_of_values (int4in w) v = inr r → has_id (r_id r) t = true →
       run_statement (int4in w) (tie_break w) (InsertOnConflictDoNothing v)
         (Some t) = inr (Some t, [])).
Proof.
  intros Hf first second.
  destruct (load_no_faults csv_file conn_id w Hf) as (Hf1 & Hfi1 & Hi1 & _ & H1).
  fold first in Hf1, Hfi1, Hi1, H1.
  destruct (load_no_faults csv_file conn_id first.2 Hf1) as (_ & _ & _ & _ & H2).
  fold second in H2.
  assert (file_plan first.2 csv_file = file_plan w csv_file) as Hplan
    by (unfold file_plan; by rewrite Hfi1, Hi1).
  rewrite Hplan in H2.
  assert (database second.2 = database first.2) as Hdb.
  { destruct (file_plan w csv_file) as [rs|].
    - destruct H1 as [_ H1], H2 as [_ H2]. rewrite H2. unfold stored at 1.
      rewrite H1. simpl. by rewrite insert_all_idempotent.
    - by destruct H2. }
  split; [done|]. split; [unfold stored; by rewrite Hdb|]. split.
  - intros Hok. destruct (file_plan w csv_file) as [rs|].
    + by destruct H2.
    + destruct H1 as [[e He] _]. congruence.
  - intros v r t Hv Hid. simpl. rewrite Hv. simpl.
    unfold insert_on_conflict_do_nothing. by rewrite Hid.
Qed.

(** ** The analysis query *)

Lemma max_total_cons g gs :
  max_total (g :: gs)
  = Some (match max_total gs with Some m => Z.max g.2 m | None => g.2 end).
Proof. simpl. by destruct (max_total gs). Qed.

Lemma max_total_spec gs :
  gs ≠ [] →
  ∃ m, max_total gs = Some m
       ∧ (∀ g, g ∈ gs → g.2 <= m)
       ∧ (∃ g, g ∈ gs ∧ g.2 = m).
Proof.
  induction gs as [|g gs IH]; [done|]. intros _. rewrite max_total_cons.
  destruct gs as [|g' gs'].
  - exists g.2. simpl. split; [done|]. split.
    + intros g0 ->%list_elem_of_singleton. lia.
    + exists g. split; [left|done].
  - destruct IH as (m & -> & Hle & g0 & Hin & Hg0); [done|].
    exists (Z.max g.2 m). split; [done|]. split.
    + intros g1 [->|H1]%elem_of_cons; [lia|]. specialize (Hle _ H1). lia.
    + destruct (Z.max_spec g.2 m) as [[_ ->]|[_ ->]].
      * exists g0. split; [by right|done].
      * exists g. split; [left|done].
Qed.

Lemma groups_elem g t :
  g ∈ groups t ↔ ∃ r, r ∈ t ∧ g = (key_of r, total (key_of r) t).
Proof.
  unfold groups. rewrite list_elem_of_fmap. split.
  - intros (k & -> & Hk). rewrite elem_of_remove_dups, list_elem_of_fmap in Hk.
    destruct Hk as (r & -> & Hr). eauto.
  - intros (r & Hr & ->). exists (key_of r). split; [done|].
    rewrite elem_of_remove_dups, list_elem_of_fmap. eauto.
Qed.

(** On a table with rows the query returns one row: a group of the table
    with its sum, which no group exceeds. *)
Lemma select_top_group_spec tie t :
  t ≠ [] →
  ∃ top,
    select_top_group tie t = [top]
    ∧ (∃ r, r ∈ t ∧ key_of r
            = (t_title top, t_year top, t_month top, t_day top, t_hour top))
    ∧ t_total top
      = total (t_title top, t_year top, t_month top, t_day top, t_hour top) t
    ∧ (∀ r, r ∈ t → total (key_of r) t <= t_total top).
Proof.
  intros Ht. unfold select_top_group. cbv zeta.
  assert (groups t ≠ []) as Hgs.
  { destruct t as [|r t]; [done|]. intros Hnil.
    assert ((key_of r, total (key_of r) (r :: t)) ∈ groups (r :: t)) as Hin
      by (apply groups_elem; exists r; split; [left|done]).
    rewrite Hnil in Hin. by apply elem_of_nil in Hin. }
  destruct (max_total_spec _ Hgs) as (m & Hm & Hle & g0 & Hg0 & Hg0m).
  assert (∀ g, g ∈ top_groups (groups t) ↔ g ∈ groups t ∧ g.2 = m) as Htop.
  { intros g. unfold top_groups. rewrite list_elem_of_filter, Hm.
    split; intros [H1 H2]; split; congruence. }
  assert (top_groups (groups t) ≠ []) as Hne.
  { intros Hnil. assert (g0 ∈ top_groups (groups t)) as Hin by by apply Htop.
    rewrite Hnil in Hin. by apply elem_of_nil in Hin. }
  set (tops := top_groups (groups t)) in *.
  destruct (lookup_lt_is_Some_2 tops (tie mod length tops)%nat) as [g Hg].
  { apply Nat.mod_upper_bound. by destruct tops. }
  unfold group_key in *. rewrite Hg.
  apply list_elem_of_lookup_2, Htop in Hg as [Hin Hgm].
  apply groups_elem in Hin as (r & Hr & ->).
  destruct (key_of r) as [[[[title year] month] day] hour] eqn:Hk.
  eexists. split; [done|]. simpl in *. split; [eauto|]. split; [done|].
  intros r' Hr'. rewrite Hgm. apply (Hle (key_of r', total (key_of r') t)).
  apply groups_elem. eauto.
Qed.

Lemma select_top_group_nil tie : select_top_group tie [] = [].
Proof. reflexivity. Qed.

(** The Analyzer on a store that holds the table and answers the query. *)
Lemma get_most_viewed_page_run conn_id w t :
  database w = Some t → faults w ≠ Some 0%nat →
  let w1 := add_log INFO
              "Running analysis: most viewed Wikipedia page with time context" w in
  ∃ w2, same_outside w1 w2 ∧
    get_most_viewed_page conn_id w =
      match select_top_group (tie_break w) t with
      | [] =>
          (Ok ∅, add_log WARNING "No data found in wikipedia_pageviews table" w2)
      | top :: _ =>
          (Ok (result_dict top),
           add_log INFO (report_message top)
             (set_analysis_log
                (Some (default EmptyString (analysis_log w)
                       +:+ (report_message top +:+ LF)))
                (set_analysis_dir true w2)))
      end.
Proof.
  intros Hdb Hf w1. unfold get_most_viewed_page, bind.
  unfold logger_info at 1. unfold modify. fold w1.
  rewrite postgres_cursor_run. unfold bind, cursor_execute. simpl.
  rewrite Hdb. simpl.
  destruct (faults w) as [[|n]|]; [done| |]; simpl;
    (destruct (select_top_group (tie_break w) t) as [|top rest]; simpl;
     eexists; (split; [|reflexivity]); by repeat split).
Qed.

(** ** Theorems about the Analyzer *)

(** C6: on a store whose table has rows, and that answers the query, the
    Analyzer returns the fields of one group (page_title, year, month, day,
    hour) of the table together with the sum of the pageviews of that group,
    and no group of the table has a greater sum.  It makes sure the
    directory of the analysis log exists, and the log afterwards is what it
    was before, nothing if it was missing, followed by the one line "Most
    viewed Wikipedia page: 'title' | Total views: n | Time window:
    year-mm-dd at hh:00" and a newline. *)
Theorem analyzer_reports_top_group (conn_id : string) (w : world) (t : table) :
  database w = Some t → t ≠ [] → faults w ≠ Some 0%nat →
  let res := (get_most_viewed_page conn_id w).1 in
  let w' := (get_most_viewed_page conn_id w).2 in
  ∃ top,
    res = Ok (result_dict top)
    ∧ (∃ r, r ∈ t ∧ key_of r
            = (t_title top, t_year top, t_month top, t_day top, t_hour top))
    ∧ t_total top
      = total (t_title top, t_year top, t_month top, t_day top, t_hour top) t
    ∧ (∀ r, r ∈ t → total (key_of r) t <= t_total top)
    ∧ analysis_dir w' = true
    ∧ analysis_log w'
      = Some (default EmptyString (analysis_log w)
              +:+ (report_message top +:+ LF))
    ∧ report_message top
      = "Most viewed Wikipedia page: '" +:+ t_title top
        +:+ "' | Total views: " +:+ str (t_total top)
        +:+ " | Time window: " +:+ str (t_year top)
        +:+ "-" +:+ format_02d (t_month top)
        +:+ "-" +:+ format_02d (t_day top)
        +:+ " at " +:+ format_02d (t_hour top) +:+ ":00"
    ∧ database w' = database w.
Proof.
  intros Hdb Ht Hf res w'. subst res w'.
  destruct (get_most_viewed_page_run conn_id w t Hdb Hf) as (w2 & Hout & ->).
  destruct (select_top_group_spec (tie_break w) t Ht)
    as (top & -> & Hkey & Htot & Hmax).
  exists top. simpl. repeat (split; [done|]). by destruct Hout as (Hd & _).
Qed.

Lemma analyzer_reports_top_group_witness :
  ∃ top,
    (get_most_viewed_page "postgres_connection" Examples.loaded_world).1
    = Ok (result_dict top)
    ∧ t_total top
      = total (t_title top, t_year top, t_month top, t_day top, t_hour top)
          Examples.loaded_table.
Proof.
  destruct (analyzer_reports_top_group "postgres_connection"
              Examples.loaded_world Examples.loaded_table)
    as (top & Hres & _ & Htot & _).
  - reflexivity.
  - discriminate.
  - discriminate.
  - exists top. split; [exact Hres|exact Htot].
Defined.

(** C7: on a store whose table exists and has no row, the Analyzer returns
    the empty dictionary, raises nothing, records one warning in the pipeline
    log, and leaves the analysis log and its directory as they were. *)
Theorem analyzer_empty_store (conn_id : string) (w : world) :
  database w = Some [] → faults w ≠ Some 0%nat →
  let res := (get_most_viewed_page conn_id w).1 in
  let w' := (get_most_viewed_page conn_id w).2 in
  res = Ok ∅
  ∧ pipeline_log w'
    = pipeline_log w
      ++ [(INFO, "Running analysis: most viewed Wikipedia page with time context");
          (WARNING, "No data found in wikipedia_pageviews table")]
  ∧ analysis_log w' = analysis_log w
  ∧ analysis_dir w' = analysis_dir w
  ∧ database w' = database w.
Proof.
  intros Hdb Hf res w'. subst res w'.
  destruct (get_most_viewed_page_run conn_id w [] Hdb Hf) as (w2 & Hout & ->).
  rewrite select_top_group_nil. simpl.
  destruct Hout as (Hd & _ & _ & _ & _ & _ & Hl & Had & Hal). simpl in *.
  by rewrite Hd, Hl, Had, Hal, <- app_assoc.
Qed.

Lemma analyzer_empty_store_witness :
  (get_most_viewed_page "postgres_connection" Examples.empty_table_world).1
  = Ok ∅
  ∧ analysis_log
      (get_most_viewed_page "postgres_connection" Examples.empty_table_world).2
    = None.
Proof.
  destruct (analyzer_empty_store "postgres_connection"
              Examples.empty_table_world eq_refl)
    as (Hres & _ & Hlog & _).
  - discriminate.
  - split; [exact Hres|exact Hlog].
Defined.

Lemma reload_is_idempotent_witness :
  let first := load_to_postgres "pageviews.csv" "postgres_connection"
                 Examples.fresh_world in
  let second := load_to_postgres "pageviews.csv" "postgres_connection" first.2 in
  database second.2 = database first.2 ∧ second.1 = Ok tt.
Proof.
  intros first second.
  destruct (reload_is_idempotent "pageviews.csv" "postgres_connection"
              Examples.fresh_world eq_refl) as (Hdb & _ & Hok & _).
  split; [exact Hdb|]. apply Hok. vm_compute. reflexivity.
Defined.
